(** * program_11.py: streamflow tables, clipping, monthly profile, exceedance

    A shallow embedding of the data pipeline of [program_11.py]
    ([ReadData], [ClipData], [ReadMetrics], [GetMonthlyStatistics], the
    loop of the main routine over the two stations, the selection of a
    station's metrics and the figure-6 exceedance computation) together
    with the properties its specification states about it.

    Modelling conventions.
    - A pandas [Timestamp] of a daily record is a calendar date
      (year, month, day), ordered lexicographically; a date string such
      as '2014-10-01' is the timestamp it denotes.
    - A float64 discharge is a rational number; NaN ("absent") is [None].
    - A DataFrame indexed by date is the list of its rows in index order;
      label slicing is modelled on an ascending index, the order of the
      discharge files.
    - The text of a file is taken field by field, as the tokenizer of
      [read_csv] delivers it.
    - A Python exception is an explicit [Raised] result. *)

From Stdlib Require Import ZArith QArith List Ascii String Bool Lia Lqa.
From Stdlib Require Import Sorted Permutation.
Import ListNotations.

Local Open Scope Z_scope.

(** ** Timestamps *)

Record Timestamp : Type := mkTimestamp { year : Z; month : Z; day : Z }.

Module Ts.

Definition ltb (a b : Timestamp) : bool :=
  (year a <? year b)
  || ((year a =? year b)
      && ((month a <? month b)
          || ((month a =? month b) && (day a <? day b)))).

Definition leb (a b : Timestamp) : bool := negb (ltb b a).

Definition eqb (a b : Timestamp) : bool :=
  (year a =? year b) && (month a =? month b) && (day a =? day b).

Definition lt (a b : Timestamp) : Prop :=
  year a < year b
  \/ (year a = year b
      /\ (month a < month b \/ (month a = month b /\ day a < day b))).

Definition le (a b : Timestamp) : Prop := ~ lt b a.

End Ts.

(** ** Rows and frames *)

(** One row of the discharge table; [Date] is the index label. *)
Record Row : Type := mkRow {
  agency_cd : string;
  site_no : string;
  Date : Timestamp;
  Discharge : option Q;
  Quality : string
}.

Definition DataFrame : Type := list Row.

Definition index (df : DataFrame) : list Timestamp := map Date df.

(** ** The pandas / numpy operations the program calls *)

Module Pd.

(** [x < c] on two numbers. *)
Definition Qlt_bool (x c : Q) : bool := negb (Qle_bool c x).

(** [Series < c], element-wise; a comparison with NaN is False. *)
Definition series_lt (col : list (option Q)) (c : Q) : list bool :=
  map (fun x => match x with
                | Some v => Qlt_bool v c
                | None => false
                end) col.

(** [Series.mask(cond, other)]: [other] where [cond] holds, the old value
    elsewhere. *)
Definition mask (col : list (option Q)) (cond : list bool)
    (other : option Q) : list (option Q) :=
  map (fun xc : option Q * bool => if snd xc then other else fst xc)
      (combine col cond).

(** [Series.isna()]. *)
Definition isna (col : list (option Q)) : list bool :=
  map (fun x => match x with Some _ => false | None => true end) col.

(** [.sum()] of a boolean series: True counts 1. *)
Definition sum_bool (bs : list bool) : nat :=
  fold_left (fun acc (b : bool) => if b then S acc else acc) bs 0%nat.

(** [Index.is_monotonic_increasing]: each label is at most the next. *)
Fixpoint is_monotonic_increasing (a : list Timestamp) : bool :=
  match a with
  | [] => true
  | x :: rest =>
      match rest with
      | [] => true
      | y :: _ => Ts.leb x y && is_monotonic_increasing rest
      end
  end.

(** [numpy.searchsorted(a, v, side='left')] on an ascending [a]: the
    first position whose element is not below [v]. *)
Fixpoint searchsorted_left (a : list Timestamp) (v : Timestamp) : nat :=
  match a with
  | [] => 0%nat
  | x :: rest => if Ts.ltb x v then S (searchsorted_left rest v) else 0%nat
  end.

(** [numpy.searchsorted(a, v, side='right')] on an ascending [a]: the
    first position whose element is above [v]. *)
Fixpoint searchsorted_right (a : list Timestamp) (v : Timestamp) : nat :=
  match a with
  | [] => 0%nat
  | x :: rest => if Ts.leb x v then S (searchsorted_right rest v) else 0%nat
  end.

(** Positional slice [l[lo:hi]]; empty when [hi <= lo]. *)
Definition slice {A : Type} (lo hi : nat) (l : list A) : list A :=
  firstn (hi - lo) (skipn lo l).

(** [df[start:end]] on an ascending DatetimeIndex: both labels are
    located by [searchsorted] and the rows between the two positions are
    returned; the end label is inclusive. *)
Definition loc_slice (df : DataFrame) (startDate endDate : Timestamp)
    : DataFrame :=
  slice (searchsorted_left (index df) startDate)
        (searchsorted_right (index df) endDate) df.

End Pd.

(** ** ReadData *)

(** A field of the discharge column as the tokenizer delivers it: a
    numeric literal of a finite value that a float holds (with the value
    it denotes), or text that does not read as a number. *)
Inductive Token : Type :=
| Numeric (v : Q)
| Text (s : string).

(** One data line of the file, after the header line and the comment lines
    have been skipped and the date column has been parsed. *)
Record RawRow : Type := mkRawRow {
  raw_agency_cd : string;
  raw_site_no : string;
  raw_Date : Timestamp;
  raw_Discharge : Token;
  raw_Quality : string
}.

Definition RawFile : Type := list RawRow.

Inductive Exception : Type :=
| TypeError.

Inductive Result (A : Type) : Type :=
| Returned (a : A)
| Raised (e : Exception).
Arguments Returned {A} a.
Arguments Raised {A} e.

Module Csv.

(** The strings [read_csv] reads as NaN by default. *)
Definition default_na_values : list string :=
  [ EmptyString; "#N/A"; "#N/A N/A"; "#NA"; "-1.#IND"; "-1.#QNAN";
    "-NaN"; "-nan"; "1.#IND"; "1.#QNAN"; "<NA>"; "N/A"; "NA"; "NULL";
    "NaN"; "n/a"; "nan"; "null" ]%string.

Definition is_na (na_values : list string) (s : string) : bool :=
  existsb (String.eqb s) (na_values ++ default_na_values).

(** The value of one field of a float column: [None] (outer) when the
    field is text that is not an NA marker. *)
Definition parse_field (na_values : list string) (t : Token)
    : option (option Q) :=
  match t with
  | Numeric v => Some (Some v)
  | Text s => if is_na na_values s then Some None else None
  end.

(** A column converts to float64 when every field is a number or an NA
    marker; otherwise it stays an object column of strings ([None]). *)
Fixpoint parse_float_column (na_values : list string) (ts : list Token)
    : option (list (option Q)) :=
  match ts with
  | [] => Some []
  | t :: rest =>
      match parse_field na_values t,
            parse_float_column na_values rest with
      | Some x, Some xs => Some (x :: xs)
      | _, _ => None
      end
  end.

(** The frame [read_csv] builds once the discharge column has converted:
    one row per data line, the date column as the index. *)
Definition frame (file : RawFile) (col : list (option Q)) : DataFrame :=
  map (fun rx : RawRow * option Q =>
         mkRow (raw_agency_cd (fst rx)) (raw_site_no (fst rx))
               (raw_Date (fst rx)) (snd rx) (raw_Quality (fst rx)))
      (combine file col).

(** [read_csv(..., na_values=na_values)] followed by [set_index('Date')].
    [None] stands for a frame whose Discharge column is an object column
    of strings. *)
Definition read_csv (na_values : list string) (file : RawFile)
    : option DataFrame :=
  option_map (frame file)
             (parse_float_column na_values (map raw_Discharge file)).

End Csv.

Definition Discharge_column (df : DataFrame) : list (option Q) :=
  map Discharge df.

(** Assign a new Discharge column to a frame, row by row. *)
Definition set_Discharge (df : DataFrame) (col : list (option Q))
    : DataFrame :=
  map (fun rx : Row * option Q =>
         mkRow (agency_cd (fst rx)) (site_no (fst rx)) (Date (fst rx))
               (snd rx) (Quality (fst rx)))
      (combine df col).

(** [ReadData]: [read_csv] with [na_values=['Eqp']], the gross-error mask
    that overwrites the discharges below 0 with NaN, then
    [isna().sum()].  On an object column the comparison with 0 raises
    [TypeError]. *)
Definition ReadData (file : RawFile) : Result (DataFrame * nat) :=
  match Csv.read_csv ["Eqp"%string] file with
  | None => Raised TypeError
  | Some DataDF =>
      let DataDF :=
        set_Discharge DataDF
          (Pd.mask (Discharge_column DataDF)
                   (Pd.series_lt (Discharge_column DataDF) 0%Q) None) in
      let MissingValues := Pd.sum_bool (Pd.isna (Discharge_column DataDF)) in
      Returned (DataDF, MissingValues)
  end.

(** ** ClipData *)

Definition ClipData (DataDF : DataFrame) (startDate endDate : Timestamp)
    : DataFrame * nat :=
  let DataDF := Pd.loc_slice DataDF startDate endDate in
  let MissingValues := Pd.sum_bool (Pd.isna (Discharge_column DataDF)) in
  (DataDF, MissingValues).

(** The rows whose date lies in the inclusive window [[startDate, endDate]]. *)
Definition in_window (startDate endDate : Timestamp) (r : Row) : bool :=
  Ts.leb startDate (Date r) && Ts.leb (Date r) endDate.

(** A row whose discharge is absent. *)
Definition absent (r : Row) : bool :=
  match Discharge r with
  | Some _ => false
  | None => true
  end.

(** ** GetMonthlyStatistics *)

Module Agg.

(** The values that are not NaN. *)
Definition dropna (col : list (option Q)) : list Q :=
  flat_map (fun x => match x with Some v => [v] | None => [] end) col.

Definition Qsum (vs : list Q) : Q := fold_left Qplus vs 0%Q.

(** [mean()] with [skipna]: the mean of the values present, NaN when there
    is none. *)
Definition nanmean (col : list (option Q)) : option Q :=
  match dropna col with
  | [] => None
  | vs => Some (Qsum vs / inject_Z (Z.of_nat (List.length vs)))%Q
  end.

(** Months counted from year 0: the position of a month on the time axis. *)
Definition month_ordinal (t : Timestamp) : Z := year t * 12 + (month t - 1).

(** The first day of the month at a given position. *)
Definition month_start (o : Z) : Timestamp :=
  mkTimestamp (o / 12) (o mod 12 + 1) 1.

Definition minimum (l : list Z) : option Z :=
  match l with
  | [] => None
  | x :: rest => Some (fold_left Z.min rest x)
  end.

Definition maximum (l : list Z) : option Z :=
  match l with
  | [] => None
  | x :: rest => Some (fold_left Z.max rest x)
  end.

(** The month positions from [lo] to [hi], both included. *)
Definition month_range (lo hi : Z) : list Z :=
  map (fun k => lo + Z.of_nat k) (seq 0 (Z.to_nat (hi - lo + 1))).

(** The bin labels of [resample('MS')]: every month start from the month
    of the earliest index label to the month of the latest one, whether
    or not rows fall in it.  No label for an empty frame. *)
Definition resample_MS_labels (df : DataFrame) : list Timestamp :=
  let ords := map month_ordinal (index df) in
  match minimum ords, maximum ords with
  | Some lo, Some hi => map month_start (month_range lo hi)
  | _, _ => []
  end.

(** The rows of the bin labelled [lbl]: those of its year and month. *)
Definition in_bin (lbl : Timestamp) (r : Row) : bool :=
  (year (Date r) =? year lbl) && (month (Date r) =? month lbl).

(** [DataDF.resample('MS')['Discharge'].mean()], with its index. *)
Definition resample_MS_mean (df : DataFrame)
    : list (Timestamp * option Q) :=
  map (fun lbl => (lbl, nanmean (Discharge_column (filter (in_bin lbl) df))))
      (resample_MS_labels df).

(** The distinct keys of a [groupby], ascending. *)
Fixpoint insert_key (k : Z) (ks : list Z) : list Z :=
  match ks with
  | [] => [k]
  | x :: rest =>
      if k <? x then k :: ks
      else if k =? x then ks
      else x :: insert_key k rest
  end.

Definition group_keys (ks : list Z) : list Z := fold_right insert_key [] ks.

(** [frame.groupby(key).mean()] on a one-column frame given as
    (key, value) pairs: one row per distinct key, ascending, holding the
    NaN-skipping mean of the key's values. *)
Definition groupby_mean (kvs : list (Z * option Q)) : list (Z * option Q) :=
  map (fun k =>
         (k, nanmean (map snd (filter (fun kv : Z * option Q => fst kv =? k)
                                      kvs))))
      (group_keys (map fst kvs)).

End Agg.

(** [GetMonthlyStatistics]: the month-start resampled means, grouped by
    the month number of their label and averaged. The result is the
    frame [MonthlyAverages] as (index, Discharge) pairs. *)
Definition GetMonthlyStatistics (DataDF : DataFrame) : list (Z * option Q) :=
  let MoDataDF := Agg.resample_MS_mean DataDF in
  let MonthlyAverages :=
    Agg.groupby_mean
      (map (fun lv : Timestamp * option Q => (month (fst lv), snd lv))
           MoDataDF) in
  MonthlyAverages.

(** The (key, value) pairs that [GetMonthlyStatistics] groups: the month
    number of each bin label with the bin's mean. *)
Definition month_keyed (df : DataFrame) : list (Z * option Q) :=
  map (fun lv : Timestamp * option Q => (month (fst lv), snd lv))
      (Agg.resample_MS_mean df).

(** ** Figure 6: exceedance of the annual peak flows *)

Module Exc.

(** [sort_values(ascending=False)] on the values of a series. *)
Fixpoint insert_desc (x : Q) (l : list Q) : list Q :=
  match l with
  | [] => [x]
  | y :: rest => if Qle_bool y x then x :: l else y :: insert_desc x rest
  end.

Definition sort_values_desc (l : list Q) : list Q :=
  fold_right insert_desc [] l.

Definition count_lt (x : Q) (a : list Q) : nat :=
  List.length (filter (fun y => Pd.Qlt_bool y x) a).

Definition count_eq (x : Q) (a : list Q) : nat :=
  List.length (filter (fun y => Qeq_bool y x) a).

Definition Qnat (n : nat) : Q := inject_Z (Z.of_nat n).

(** The rank of [x] among [a] under [method='average']: the values below
    [x] come first, and the values tied with [x] share the mean of the
    ranks they span. *)
Definition rank_average (a : list Q) (x : Q) : Q :=
  (Qnat (count_lt x a) + (Qnat (count_eq x a) + 1) / 2)%Q.

(** [scipy.stats.rankdata(a, method='average')]: ranks start at 1 for the
    smallest value. *)
Definition rankdata_average (a : list Q) : list Q :=
  map (rank_average a) a.

(** The number of values of [a] above [x]. *)
Definition count_gt (x : Q) (a : list Q) : nat :=
  List.length (filter (fun y => Pd.Qlt_bool x y) a).

(** No two values of the series are equal. *)
Definition distinct (a : list Q) : Prop :=
  ForallOrdPairs (fun x y => ~ (x == y)%Q) a.

End Exc.

(** The points of the figure-6 scatter plot for one station, as
    (exceedance, peak flow) pairs in plotting order. *)
Definition exceedance (peak_flow : list Q) : list (Q * Q) :=
  let peak := Exc.sort_values_desc peak_flow in
  let rank := Exc.rankdata_average peak in
  let rank_rev := rev rank in
  let exc :=
    map (fun i => (nth i rank_rev 0 / Exc.Qnat (List.length peak + 1))%Q)
        (seq 0 (List.length peak)) in
  combine exc peak.

(** ** Sample tables *)

Module Sample.

Definition row (y m d : Z) (q : option Q) : Row :=
  mkRow "USGS" "03335000" (mkTimestamp y m d) q "A".

(** A few days of a record that spans the 2014-10-01 .. 2019-09-30 window. *)
Definition daily : DataFrame :=
  [ row 2014 9 29 (Some 120%Q); row 2014 9 30 None;
    row 2014 10 1 (Some 95%Q); row 2014 10 2 None;
    row 2017 3 14 (Some 410%Q); row 2019 9 29 (Some 77%Q);
    row 2019 9 30 None; row 2019 10 1 (Some 80%Q);
    row 2020 3 15 (Some 61%Q) ].

Definition startDate : Timestamp := mkTimestamp 2014 10 1.
Definition endDate : Timestamp := mkTimestamp 2019 9 30.

End Sample.

(** ** Reading of the raw fields *)

(** A field that a float column can hold: a number, the token "Eqp", or
    one of the default NA markers. *)
Definition numeric_or_missing (t : Token) : Prop :=
  match t with
  | Numeric _ => True
  | Text s => s = "Eqp"%string \/ In s Csv.default_na_values
  end.

(** A raw field that is a number. *)
Definition is_number (t : Token) : bool :=
  match t with
  | Numeric _ => true
  | Text _ => false
  end.

(** A raw field that is a number below zero. *)
Definition is_negative (t : Token) : bool :=
  match t with
  | Numeric v => Pd.Qlt_bool v 0
  | Text _ => false
  end.

(** A raw field that is the token "Eqp". *)
Definition is_Eqp (t : Token) : bool :=
  match t with
  | Numeric _ => false
  | Text s => String.eqb s "Eqp"
  end.

(** A raw field that is one of the default NA markers (blank, NaN, ...). *)
Definition is_default_na (t : Token) : bool :=
  match t with
  | Numeric _ => false
  | Text s => existsb (String.eqb s) Csv.default_na_values
  end.

(** The value a float column holds for a field: NaN for an NA marker. *)
Definition field_value (t : Token) : option Q :=
  match t with
  | Numeric v => Some v
  | Text _ => None
  end.

(** The value of a field after the gross-error mask. *)
Definition screened_value (t : Token) : option Q :=
  match t with
  | Numeric v => if Pd.Qlt_bool v 0 then None else Some v
  | Text _ => None
  end.

(** The row [read_csv] makes of a data line. *)
Definition parsed_row (raw : RawRow) : Row :=
  mkRow (raw_agency_cd raw) (raw_site_no raw) (raw_Date raw)
        (field_value (raw_Discharge raw)) (raw_Quality raw).

(** The row of a data line after the gross-error mask. *)
Definition screened_row (raw : RawRow) : Row :=
  mkRow (raw_agency_cd raw) (raw_site_no raw) (raw_Date raw)
        (screened_value (raw_Discharge raw)) (raw_Quality raw).

Definition count_fields (p : Token -> bool) (file : RawFile) : nat :=
  List.length (filter p (map raw_Discharge file)).

Module SampleFile.

Definition line (y m d : Z) (t : Token) : RawRow :=
  mkRawRow "USGS" "03335000" (mkTimestamp y m d) t "A".

Definition lines : RawFile :=
  [ line 1954 6 1 (Numeric 120%Q); line 1954 6 2 (Numeric (-5)%Q);
    line 1954 6 3 (Text "Eqp"); line 1954 6 4 (Numeric 0%Q);
    line 1954 6 5 (Text "NaN"); line 1954 6 6 (Numeric (7 # 2)) ].

End SampleFile.

(** ** The Monthly Aggregator in the words of its specification *)

Module Spec.

(** A timestamp of the calendar: its month is one of 1..12. *)
Definition calendar_date (t : Timestamp) : Prop := 1 <= month t <= 12.

(** The calendar month number of a month position. *)
Definition calendar_month (o : Z) : Z := o mod 12 + 1.

(** The values of a column that are not absent. *)
Fixpoint present (col : list (option Q)) : list Q :=
  match col with
  | [] => []
  | Some v :: rest => v :: present rest
  | None :: rest => present rest
  end.

Fixpoint total (vs : list Q) : Q :=
  match vs with
  | [] => 0%Q
  | v :: rest => (v + total rest)%Q
  end.

(** The mean of a column, absent values ignored: the total of the values
    present over their number; absent when no value is present. *)
Definition mean (col : list (option Q)) : option Q :=
  match present col with
  | [] => None
  | v :: vs => Some (total (v :: vs) / inject_Z (Z.of_nat (List.length (v :: vs))))%Q
  end.

(** The bucket of a day: its calendar month of its year. *)
Definition bucket_of (t : Timestamp) : Z * Z := (year t, month t).

Definition same_bucket (b c : Z * Z) : bool :=
  (fst b =? fst c) && (snd b =? snd c).

(** Each bucket once, in the order of first appearance. *)
Fixpoint distinct_buckets (bs : list (Z * Z)) : list (Z * Z) :=
  match bs with
  | [] => []
  | b :: rest =>
      b :: filter (fun c => negb (same_bucket b c)) (distinct_buckets rest)
  end.

(** (a) The month-start buckets of a table: all days of a calendar month
    of a year collapse to one bucket. *)
Definition buckets (df : DataFrame) : list (Z * Z) :=
  distinct_buckets (map bucket_of (index df)).

(** The mean discharge of a bucket, absent values ignored. *)
Definition bucket_mean (df : DataFrame) (b : Z * Z) : option Q :=
  mean (Discharge_column
          (filter (fun r => same_bucket (bucket_of (Date r)) b) df)).

(** The bucket means of calendar month [m], the year discarded: one per
    year that has the month. *)
Definition monthly_means (df : DataFrame) (m : Z) : list (option Q) :=
  map (bucket_mean df) (filter (fun b => snd b =? m) (buckets df)).

(** (b) The mean, over the years, of the bucket means of calendar month
    [m]. *)
Definition monthly_profile (df : DataFrame) (m : Z) : option Q :=
  mean (monthly_means df m).

(** Equality of two discharges as numbers: both absent, or both present
    and equal as rationals. *)
Definition same_value (a b : option Q) : Prop :=
  match a, b with
  | Some x, Some y => (x == y)%Q
  | None, None => True
  | _, _ => False
  end.

End Spec.

(** The bins of the resampled table that hold rows, by month position:
    the form in which the proofs follow the code. *)
Module Bins.

(** The month positions in which rows fall, ascending. *)
Definition positions (df : DataFrame) : list Z :=
  Agg.group_keys (map Agg.month_ordinal (index df)).

(** The mean of the bin at month position [o], as [resample] takes it. *)
Definition mean_at (df : DataFrame) (o : Z) : option Q :=
  Agg.nanmean
    (Discharge_column
       (filter (fun r => Agg.month_ordinal (Date r) =? o) df)).

Definition monthly_means (df : DataFrame) (m : Z) : list (option Q) :=
  map (mean_at df) (filter (fun o => Spec.calendar_month o =? m) (positions df)).

Definition monthly_profile (df : DataFrame) (m : Z) : option Q :=
  Agg.nanmean (monthly_means df m).

(** Some row of the table falls in the month at position [o]. *)
Definition has_rows (df : DataFrame) (o : Z) : bool :=
  existsb (Z.eqb o) (map Agg.month_ordinal (index df)).

(** The month position of a bucket. *)
Definition position_of (b : Z * Z) : Z := fst b * 12 + (snd b - 1).

End Bins.

Module SamplePeaks.

Definition peaks : list Q := [ 410; 1250; 95; 730 ]%Q.

End SamplePeaks.

Module SampleYears.

(** Two years of record whose January means are 10 and 30. *)
Definition two_years : DataFrame :=
  [ Sample.row 2018 1 10 (Some 8%Q); Sample.row 2018 1 20 (Some 12%Q);
    Sample.row 2018 1 25 None; Sample.row 2018 7 4 (Some 3%Q);
    Sample.row 2019 1 5 (Some 30%Q); Sample.row 2019 2 1 (Some 6%Q) ].

(** Two years of record with three January days each: the January
    means are 10 and 30. *)
Definition januaries : DataFrame :=
  [ Sample.row 2018 1 5 (Some 7%Q); Sample.row 2018 1 15 (Some 10%Q);
    Sample.row 2018 1 25 (Some 13%Q); Sample.row 2018 7 4 (Some 3%Q);
    Sample.row 2019 1 5 (Some 25%Q); Sample.row 2019 1 15 (Some 30%Q);
    Sample.row 2019 1 25 (Some 35%Q) ].

(** A record with no day in February. *)
Definition gap : DataFrame :=
  [ Sample.row 2019 1 15 (Some 10%Q); Sample.row 2019 3 15 (Some 4%Q) ].

(** A record that starts mid-year. *)
Definition mid_year : DataFrame :=
  [ Sample.row 2019 6 15 (Some 10%Q); Sample.row 2019 7 1 None;
    Sample.row 2019 9 15 (Some 30%Q) ].

End SampleYears.

(** ** The data-model invariant of a discharge *)

(** A discharge that is absent or not below zero. *)
Definition plausible (r : Row) : Prop :=
  match Discharge r with
  | Some v => (0 <= v)%Q
  | None => True
  end.

(** ** The main routine: the daily flow of the two stations *)

(** Python dictionaries with string keys, in insertion order. *)
Module Dict.

Definition t (V : Type) : Type := list (string * V).

Fixpoint get {V : Type} (k : string) (d : t V) : option V :=
  match d with
  | [] => None
  | (k', v) :: rest => if String.eqb k k' then Some v else get k rest
  end.

(** [d[k] = v]: replaces the value of an existing key in place, appends a
    new key. *)
Fixpoint set {V : Type} (k : string) (v : V) (d : t V) : t V :=
  match d with
  | [] => [(k, v)]
  | (k', v') :: rest =>
      if String.eqb k k' then (k, v) :: rest else (k', v') :: set k v rest
  end.

Definition keys {V : Type} (d : t V) : list string := map fst d.

End Dict.

Module Main.

(** The clip window ['2014-10-01', '2019-09-30']. *)
Definition startDate : Timestamp := mkTimestamp 2014 10 1.
Definition endDate : Timestamp := mkTimestamp 2019 9 30.

Definition fileName : Dict.t string :=
  [ ("Wildcat", "WildcatCreek_Discharge_03335000_19540601-20200315.txt");
    ("Tippe", "TippecanoeRiver_Discharge_03331500_19431001-20200315.txt")
  ]%string.

(** The dictionaries [DataDF] and [MissingValues]. *)
Definition Tables : Type := (Dict.t DataFrame * Dict.t nat)%type.

(** One pass of the loop over the stations: both dictionaries are assigned
    from [ReadData], then assigned again from [ClipData] applied to the
    table just stored.  [files] gives the data lines of a named file. *)
Definition load_station (files : string -> RawFile) (st : Tables)
    (file : string) (name : string) : Result Tables :=
  match ReadData (files name) with
  | Raised e => Raised e
  | Returned (table, missing) =>
      let DataDF := Dict.set file table (fst st) in
      let MissingValues := Dict.set file missing (snd st) in
      let clipped := ClipData table startDate endDate in
      Returned (Dict.set file (fst clipped) DataDF,
                Dict.set file (snd clipped) MissingValues)
  end.

(** The loop over [fileName.keys()]; an exception ends it. *)
Fixpoint load_stations (files : string -> RawFile) (st : Tables)
    (names : Dict.t string) : Result Tables :=
  match names with
  | [] => Returned st
  | (file, name) :: rest =>
      match load_station files st file name with
      | Raised e => Raised e
      | Returned st' => load_stations files st' rest
      end
  end.

(** The tables of figure 1, from empty dictionaries. *)
Definition daily_flow (files : string -> RawFile) : Result Tables :=
  load_stations files ([], []) fileName.

(** The data lines of a file that are dated within the clip window. *)
Definition in_clip_window (raw : RawRow) : bool :=
  Ts.leb startDate (raw_Date raw) && Ts.leb (raw_Date raw) endDate.

End Main.

Module SampleStations.

Definition wildcat : RawFile :=
  [ SampleFile.line 2014 9 30 (Numeric 12%Q);
    SampleFile.line 2014 10 1 (Numeric (-3)%Q);
    SampleFile.line 2016 2 29 (Text "Eqp");
    SampleFile.line 2019 9 30 (Numeric 40%Q);
    SampleFile.line 2019 10 1 (Text "Eqp") ].

Definition tippe : RawFile :=
  [ SampleFile.line 2014 10 1 (Numeric 300%Q);
    SampleFile.line 2015 8 15 (Numeric 210%Q);
    SampleFile.line 2020 1 1 (Numeric (-1)%Q) ].

Definition files (name : string) : RawFile :=
  if String.eqb name "WildcatCreek_Discharge_03335000_19540601-20200315.txt"
  then wildcat
  else tippe.

End SampleStations.

(** ** The main routine: the average annual monthly flow *)

Module Fig5.

(** [GetMonthlyStatistics(DataDF[station])]; [None] stands for the
    [KeyError] of a station that is not in the dictionary. *)
Definition average_annual_monthly_flow (DataDF : Dict.t DataFrame)
    (station : string) : option (list (Z * option Q)) :=
  option_map GetMonthlyStatistics (Dict.get station DataDF).

(** The month numbers of a whole year. *)
Definition twelve_months : list Z := [1; 2; 3; 4; 5; 6; 7; 8; 9; 10; 11; 12].

End Fig5.

(** ** ReadMetrics and the selection of a station *)

Module Metrics.

(** A cell of a metrics table: a float (NaN is [None]), a string, or a
    parsed date. *)
Inductive Cell : Type :=
| Number (x : option Q)
| Label (s : string)
| Stamp (t : Timestamp).

Definition Column : Type := list Cell.

(** A frame: its index and its columns by name, in header order. *)
Record Frame : Type := mkFrame {
  findex : Column;
  fcolumns : Dict.t Column
}.

(** [del d[k]] on the first entry named [k]. *)
Fixpoint remove {V : Type} (k : string) (d : Dict.t V) : Dict.t V :=
  match d with
  | [] => []
  | (k', v) :: rest =>
      if String.eqb k k' then rest else (k', v) :: remove k rest
  end.

(** [frame.set_index(name)]: the named column becomes the index and
    leaves the columns; [None] stands for the [KeyError] of a missing
    column. *)
Definition set_index (name : string) (columns : Dict.t Column)
    : option Frame :=
  match Dict.get name columns with
  | None => None
  | Some col => Some (mkFrame col (remove name columns))
  end.

(** [frame[name]]; [None] stands for [KeyError]. *)
Definition getitem (frame : Frame) (name : string) : option Column :=
  Dict.get name (fcolumns frame).

(** A cell that is the string [s]. *)
Definition is_label (s : string) (c : Cell) : bool :=
  match c with
  | Label t => String.eqb t s
  | _ => false
  end.

(** [column == s], element-wise: True on the strings equal to [s]. *)
Definition eq_scalar (col : Column) (s : string) : list bool :=
  map (is_label s) col.

(** The cells of a column at the rows where the mask is True. *)
Definition take (mask : list bool) (col : Column) : Column :=
  map fst (filter (fun cb : Cell * bool => snd cb) (combine col mask)).

(** [frame[mask]]: the rows where the mask is True, index and columns
    alike. *)
Definition select (frame : Frame) (mask : list bool) : Frame :=
  mkFrame (take mask (findex frame))
          (map (fun kv : string * Column => (fst kv, take mask (snd kv)))
               (fcolumns frame)).

(** [frame[frame['Station'] == name]]. *)
Definition station (frame : Frame) (name : string) : option Frame :=
  match getitem frame "Station" with
  | None => None
  | Some st => Some (select frame (eq_scalar st name))
  end.

(** Every column is as long as the index. *)
Definition rectangular (frame : Frame) : Prop :=
  Forall (fun kv : string * Column =>
            List.length (snd kv) = List.length (findex frame))
         (fcolumns frame).

End Metrics.

(** [ReadMetrics], applied to the columns [read_csv] has parsed from the
    file (header names made unique, the Date column parsed as dates):
    the Date column is set as the index. *)
Definition ReadMetrics (parsed : Dict.t Metrics.Column)
    : option Metrics.Frame :=
  let metricsDF := parsed in
  let metricsDF := Metrics.set_index "Date" metricsDF in
  metricsDF.

Module SampleMetrics.

Definition parsed : Dict.t Metrics.Column :=
  [ ("Date"%string,
     [ Metrics.Stamp (mkTimestamp 1970 9 30);
       Metrics.Stamp (mkTimestamp 1971 9 30);
       Metrics.Stamp (mkTimestamp 1970 9 30);
       Metrics.Stamp (mkTimestamp 1971 9 30) ]);
    ("Station"%string,
     [ Metrics.Label "Tippe"; Metrics.Label "Tippe";
       Metrics.Label "Wildcat"; Metrics.Label "Wildcat" ]);
    ("Coeff Var"%string,
     [ Metrics.Number (Some (81 # 100)); Metrics.Number (Some (77 # 100));
       Metrics.Number (Some (160 # 100)); Metrics.Number None ]);
    ("Peak Flow"%string,
     [ Metrics.Number (Some 9000%Q); Metrics.Number (Some 7400%Q);
       Metrics.Number (Some 5100%Q); Metrics.Number (Some 4800%Q) ]) ].

Definition frame : Metrics.Frame :=
  Metrics.mkFrame
    [ Metrics.Stamp (mkTimestamp 1970 9 30);
      Metrics.Stamp (mkTimestamp 1971 9 30);
      Metrics.Stamp (mkTimestamp 1970 9 30);
      Metrics.Stamp (mkTimestamp 1971 9 30) ]
    (Metrics.remove "Date" parsed).

End SampleMetrics.

(** ** A metrics table written to CSV and read back *)

Module CsvText.

(** A field of a line of CSV text, as the tokenizer takes it: a numeric
    literal (its text and the value it denotes), a date (its text and
    the day it denotes), other text outside quotes, or text within
    quotes. *)
Inductive Field : Type :=
| Numeral (text : string) (v : Q)
| IsoDate (text : string) (t : Timestamp)
| Unquoted (s : string)
| Quoted (s : string).

Definition Line : Type := list Field.

(** A file: the names of its header line and its data lines. *)
Record File : Type := mkFile {
  header : list string;
  lines : list Line
}.

Definition text_of (f : Field) : string :=
  match f with
  | Numeral text _ => text
  | IsoDate text _ => text
  | Unquoted s => s
  | Quoted s => s
  end.

(** The comment marker [comment='#']. *)
Definition comment_mark : ascii := "#"%char.



(** The text before the first comment marker of [s], when [s] has one. *)
Fixpoint before_comment (s : string) : option string :=
  match s with
  | EmptyString => None
  | String c rest =>
      if Ascii.eqb c comment_mark then Some EmptyString
      else option_map (String c) (before_comment rest)
  end.

(** The tokenizer on one line: outside quotes a comment marker ends the
    field it stands in and the rest of the line is not parsed. *)
Fixpoint uncomment (line : Line) : Line :=
  match line with
  | [] => []
  | Unquoted s :: rest =>
      match before_comment s with
      | Some kept => [Unquoted kept]
      | None => Unquoted s :: uncomment rest
      end
  | f :: rest => f :: uncomment rest
  end.

(** A line that starts with the comment marker is ignored altogether. *)
Definition comment_line (line : Line) : bool :=
  match line with
  | Unquoted (String c _) :: _ => Ascii.eqb c comment_mark
  | _ => false
  end.

(** An empty line is skipped. *)
Definition blank_line (line : Line) : bool :=
  match line with
  | [] => true
  | [Unquoted EmptyString] => true
  | _ => false
  end.

Definition records (file : File) : list Line :=
  map uncomment
      (filter (fun l => negb (comment_line l || blank_line l)) (lines file)).

(** A record is filled up to the width of the header with empty fields;
    [None] for a record that is wider than the header, which is not read
    as a row of the header's columns. *)
Definition fit (width : nat) (line : Line) : option Line :=
  if (List.length line <=? width)%nat
  then Some (line ++ repeat (Unquoted EmptyString) (width - List.length line))
  else None.

Fixpoint fit_all (width : nat) (ls : list Line) : option (list Line) :=
  match ls with
  | [] => Some []
  | l :: rest =>
      match fit width l, fit_all width rest with
      | Some l', Some rest' => Some (l' :: rest')
      | _, _ => None
      end
  end.

Definition column (j : nat) (rows : list Line) : list Field :=
  map (fun l => nth j l (Unquoted EmptyString)) rows.

(** Text that is read as NaN: the default NA markers, the empty field
    among them. *)
Definition missing (f : Field) : bool :=
  match f with
  | Unquoted s => Csv.is_na [] s
  | Quoted s => Csv.is_na [] s
  | _ => false
  end.

Definition numeric (f : Field) : bool :=
  match f with
  | Numeral _ _ => true
  | _ => missing f
  end.

Definition float_cell (f : Field) : Metrics.Cell :=
  match f with
  | Numeral _ v => Metrics.Number (Some v)
  | _ => Metrics.Number None
  end.

Definition object_cell (f : Field) : Metrics.Cell :=
  if missing f then Metrics.Number None else Metrics.Label (text_of f).

(** A column of numbers and NA markers is a float column; any other
    column is an object column of the texts of its fields. *)
Definition infer (col : list Field) : Metrics.Column :=
  if forallb numeric col then map float_cell col else map object_cell col.

Definition datelike (f : Field) : bool :=
  match f with
  | IsoDate _ _ => true
  | _ => missing f
  end.

Definition date_cell (f : Field) : Metrics.Cell :=
  match f with
  | IsoDate _ t => Metrics.Stamp t
  | _ => Metrics.Number None
  end.

(** [parse_dates]: a column of dates and NA markers becomes a column of
    timestamps; any other column is left as it is read. *)
Definition parse_dates (col : list Field) : Metrics.Column :=
  if forallb datelike col then map date_cell col else infer col.

(** [pd.read_csv(file, header=0, delimiter=',', parse_dates=['Date'],
    comment='#')]: the columns by header name.  [None] stands for the
    error of a header without a Date column and of a record wider than
    the header. *)
Definition read_csv (file : File) : option (Dict.t Metrics.Column) :=
  if existsb (String.eqb "Date") (header file) then
    match fit_all (List.length (header file)) (records file) with
    | None => None
    | Some rows =>
        Some (map (fun jn : nat * string =>
                     (snd jn,
                      if String.eqb (snd jn) "Date"
                      then parse_dates (column (fst jn) rows)
                      else infer (column (fst jn) rows)))
                  (combine (seq 0 (List.length (header file)))
                           (header file)))
    end
  else None.

(** A row of a table with the columns Date, Station and Coeff Var. *)
Record MetricsRow : Type := mkMetricsRow {
  m_Date : Timestamp;
  m_Station : string;
  m_CoeffVar : option Q
}.

Section Writer.

(** The text the writer gives a date and a float. *)
Variable date_text : Timestamp -> string.
Variable float_text : Q -> string.




End Writer.

End CsvText.


Module SampleRoundTrip.


Definition table : list CsvText.MetricsRow :=
  [ CsvText.mkMetricsRow (mkTimestamp 1970 9 30) "Tippe" (Some (81 # 100));
    CsvText.mkMetricsRow (mkTimestamp 1970 9 30) "Wildcat, lower" None;
    CsvText.mkMetricsRow (mkTimestamp 1970 9 30) "Wildcat"
                         (Some (81 # 100)) ].


End SampleRoundTrip.

(** * Properties *)

(** ** The order on timestamps *)

Lemma Ts_ltb_lt (a b : Timestamp) : Ts.ltb a b = true <-> Ts.lt a b.
Proof.
  unfold Ts.ltb, Ts.lt.
  rewrite !orb_true_iff, !andb_true_iff, !orb_true_iff, !andb_true_iff.
  rewrite !Z.ltb_lt, !Z.eqb_eq. tauto.
Qed.

Lemma Ts_leb_le (a b : Timestamp) : Ts.leb a b = true <-> Ts.le a b.
Proof.
  unfold Ts.leb, Ts.le. rewrite negb_true_iff, <- Ts_ltb_lt.
  destruct (Ts.ltb b a); intuition congruence.
Qed.

Lemma Ts_ltb_ge (a b : Timestamp) : Ts.ltb a b = false <-> Ts.le b a.
Proof.
  unfold Ts.le. rewrite <- Ts_ltb_lt.
  destruct (Ts.ltb a b); intuition congruence.
Qed.

Lemma Ts_leb_gt (a b : Timestamp) : Ts.leb a b = false <-> Ts.lt b a.
Proof.
  unfold Ts.leb. rewrite negb_false_iff. apply Ts_ltb_lt.
Qed.

Lemma Ts_eqb_eq (a b : Timestamp) : Ts.eqb a b = true <-> a = b.
Proof.
  unfold Ts.eqb. rewrite !andb_true_iff, !Z.eqb_eq.
  destruct a, b; simpl. split.
  - intros [[-> ->] ->]. reflexivity.
  - intros H. inversion H. auto.
Qed.

(** Decide a goal about the timestamp order by linear arithmetic on the
    three fields. *)
Ltac ts_order :=
  repeat match goal with
    | H : Ts.ltb _ _ = true |- _ => apply Ts_ltb_lt in H
    | H : Ts.ltb _ _ = false |- _ => apply Ts_ltb_ge in H
    | H : Ts.leb _ _ = true |- _ => apply Ts_leb_le in H
    | H : Ts.leb _ _ = false |- _ => apply Ts_leb_gt in H
    | |- Ts.ltb _ _ = true => apply Ts_ltb_lt
    | |- Ts.ltb _ _ = false => apply Ts_ltb_ge
    | |- Ts.leb _ _ = true => apply Ts_leb_le
    | |- Ts.leb _ _ = false => apply Ts_leb_gt
    end;
  unfold Ts.le, Ts.lt in *; lia.

Lemma Ts_le_refl (a : Timestamp) : Ts.le a a.
Proof. ts_order. Qed.

Lemma Ts_le_trans (a b c : Timestamp) : Ts.le a b -> Ts.le b c -> Ts.le a c.
Proof. intros; ts_order. Qed.

Lemma Ts_lt_le_trans (a b c : Timestamp) :
  Ts.lt a b -> Ts.le b c -> Ts.lt a c.
Proof. intros; ts_order. Qed.

Lemma Ts_le_lt_trans (a b c : Timestamp) :
  Ts.le a b -> Ts.lt b c -> Ts.lt a c.
Proof. intros; ts_order. Qed.

Lemma Ts_le_antisym (a b : Timestamp) : Ts.le a b -> Ts.le b a -> a = b.
Proof.
  intros H1 H2. destruct a, b. unfold Ts.le, Ts.lt in *. simpl in *.
  f_equal; lia.
Qed.

(** ** Ascending frames *)

Lemma monotonic_cons (r : Row) (df : DataFrame) :
  Pd.is_monotonic_increasing (index (r :: df)) = true ->
  Forall (fun x => Ts.le (Date r) (Date x)) df
  /\ Pd.is_monotonic_increasing (index df) = true.
Proof.
  revert r. induction df as [|x df IH]; intros r H.
  - split; [constructor | reflexivity].
  - cbn [index map Pd.is_monotonic_increasing] in H.
    apply andb_true_iff in H. destruct H as [Hrx Hrest].
    apply Ts_leb_le in Hrx.
    destruct (IH x Hrest) as [Hall Hmono].
    split; [| exact Hrest].
    constructor; [exact Hrx |].
    eapply Forall_impl; [| exact Hall].
    intros y Hy. cbv beta in Hy. eapply Ts_le_trans; eassumption.
Qed.

(** ** Label slicing on an ascending frame *)

(** Nothing is left of a window that ends before every row. *)
Lemma filter_window_all_after (s e : Timestamp) (df : DataFrame) :
  Forall (fun x => Ts.lt e (Date x)) df -> filter (in_window s e) df = [].
Proof.
  induction 1 as [|x df Hx _ IH]; [reflexivity |].
  cbn [filter]. unfold in_window at 1.
  replace (Ts.leb (Date x) e) with false by (symmetry; ts_order).
  rewrite andb_false_r. exact IH.
Qed.

(** Once the start label has been passed, the rows up to the end position
    are the rows of the window. *)
Lemma firstn_searchsorted_right (s e : Timestamp) (df : DataFrame) :
  Pd.is_monotonic_increasing (index df) = true ->
  Forall (fun x => Ts.le s (Date x)) df ->
  firstn (Pd.searchsorted_right (index df) e) df = filter (in_window s e) df.
Proof.
  induction df as [|r df IH]; intros Hmono Hs; [reflexivity |].
  apply monotonic_cons in Hmono. destruct Hmono as [Hall Hmono].
  inversion Hs as [|? ? Hr Hs']; subst.
  cbn [index map Pd.searchsorted_right filter]. unfold in_window at 1.
  replace (Ts.leb s (Date r)) with true by (symmetry; ts_order).
  cbn [andb]. destruct (Ts.leb (Date r) e) eqn:He.
  - cbn [firstn]. f_equal. apply IH; assumption.
  - cbn [firstn]. symmetry. apply filter_window_all_after.
    eapply Forall_impl; [| exact Hall]. intros y Hy. cbv beta in Hy.
    ts_order.
Qed.

Lemma loc_slice_window (df : DataFrame) (s e : Timestamp) :
  Pd.is_monotonic_increasing (index df) = true ->
  Pd.loc_slice df s e = filter (in_window s e) df.
Proof.
  unfold Pd.loc_slice, Pd.slice.
  induction df as [|r df IH]; intros Hmono; [reflexivity |].
  pose proof Hmono as Hmono0.
  apply monotonic_cons in Hmono. destruct Hmono as [Hall Hmono].
  cbn [index map Pd.searchsorted_left].
  destruct (Ts.ltb (Date r) s) eqn:Hs.
  - (* the row is before the window *)
    cbn [filter]. unfold in_window at 1.
    replace (Ts.leb s (Date r)) with false by (symmetry; ts_order).
    cbn [andb Pd.searchsorted_right].
    destruct (Ts.leb (Date r) e) eqn:He.
    + cbn [Nat.sub skipn]. apply IH. exact Hmono.
    + cbn [Nat.sub firstn]. symmetry. apply filter_window_all_after.
      eapply Forall_impl; [| exact Hall]. intros y Hy. cbv beta in Hy.
      ts_order.
  - (* the row is at or after the start label *)
    rewrite Nat.sub_0_r. cbn [skipn].
    change (Date r :: map Date df) with (index (r :: df)).
    apply firstn_searchsorted_right; [exact Hmono0 |].
    constructor; [ts_order |].
    eapply Forall_impl; [| exact Hall]. intros y Hy. cbv beta in Hy.
    ts_order.
Qed.

Lemma monotonic_cons_intro (r : Row) (df : DataFrame) :
  Forall (fun x => Ts.le (Date r) (Date x)) df ->
  Pd.is_monotonic_increasing (index df) = true ->
  Pd.is_monotonic_increasing (index (r :: df)) = true.
Proof.
  intros Hall Hmono. destruct df as [|x df]; [reflexivity |].
  cbn [index map Pd.is_monotonic_increasing].
  apply andb_true_iff. split; [| exact Hmono].
  inversion Hall; subst. ts_order.
Qed.

Lemma monotonic_filter (f : Row -> bool) (df : DataFrame) :
  Pd.is_monotonic_increasing (index df) = true ->
  Pd.is_monotonic_increasing (index (filter f df)) = true.
Proof.
  induction df as [|r df IH]; intros Hmono; [reflexivity |].
  apply monotonic_cons in Hmono. destruct Hmono as [Hall Hmono].
  cbn [filter]. destruct (f r); [| apply IH; exact Hmono].
  apply monotonic_cons_intro; [| apply IH; exact Hmono].
  rewrite Forall_forall in *. intros x Hx.
  apply filter_In in Hx. apply Hall. tauto.
Qed.

Lemma filter_idempotent {A : Type} (f : A -> bool) (l : list A) :
  filter f (filter f l) = filter f l.
Proof.
  induction l as [|x l IH]; [reflexivity |].
  cbn [filter]. destruct (f x) eqn:Hx; [| exact IH].
  cbn [filter]. rewrite Hx, IH. reflexivity.
Qed.

(** The first row that a filter keeps is the earliest row it keeps. *)
Lemma filter_head_earliest (f : Row -> bool) (df : DataFrame) h t :
  Pd.is_monotonic_increasing (index df) = true ->
  filter f df = h :: t ->
  forall x, In x df -> f x = true -> Ts.le (Date h) (Date x).
Proof.
  induction df as [|r df IH]; intros Hmono Hf x Hx Hfx; [discriminate |].
  apply monotonic_cons in Hmono. destruct Hmono as [Hall Hmono].
  cbn [filter] in Hf. destruct (f r) eqn:Hr.
  - inversion Hf; subst. destruct Hx as [-> | Hx]; [apply Ts_le_refl |].
    rewrite Forall_forall in Hall. apply Hall. exact Hx.
  - destruct Hx as [-> | Hx]; [congruence |].
    apply IH; assumption.
Qed.

(** ** Counting absent values *)

Lemma sum_bool_acc (bs : list bool) (acc : nat) :
  fold_left (fun a (b : bool) => if b then S a else a) bs acc
  = (acc + List.length (filter (fun b : bool => b) bs))%nat.
Proof.
  revert acc. induction bs as [|b bs IH]; intros acc; cbn [fold_left filter].
  - cbn [List.length]. lia.
  - rewrite IH. destruct b; cbn [List.length]; lia.
Qed.

Lemma isna_sum (df : DataFrame) :
  Pd.sum_bool (Pd.isna (Discharge_column df)) = List.length (filter absent df).
Proof.
  unfold Pd.sum_bool. rewrite sum_bool_acc. cbn [Nat.add].
  unfold Pd.isna, Discharge_column.
  induction df as [|r df IH]; [reflexivity |].
  cbn [map filter]. unfold absent at 1.
  destruct (Discharge r); cbn [List.length]; rewrite IH; reflexivity.
Qed.

Lemma in_window_spec (s e : Timestamp) (r : Row) :
  in_window s e r = true <-> Ts.le s (Date r) /\ Ts.le (Date r) e.
Proof.
  unfold in_window. rewrite andb_true_iff, !Ts_leb_le. tauto.
Qed.

(** ** ClipData *)

Lemma ClipData_window (df : DataFrame) (s e : Timestamp) :
  Pd.is_monotonic_increasing (index df) = true ->
  ClipData df s e
  = (filter (in_window s e) df,
     List.length (filter absent (filter (in_window s e) df))).
Proof.
  intros Hmono. unfold ClipData.
  rewrite isna_sum, loc_slice_window by exact Hmono. reflexivity.
Qed.

(** C4. On a date-indexed (ascending) table, [ClipData] returns exactly the
    rows whose date lies in the inclusive window, in their order: a row is
    kept or dropped by its date alone, so rows with an absent discharge
    stay.  Every clipped date is within the window; when the table has a
    row dated [startDate], that is the date of the first clipped row; and
    the clipped length is the number of rows (days) of the table that fall
    in the window. *)
Theorem ClipData_inclusive_window
    (DataDF : DataFrame) (startDate endDate : Timestamp)
    (Hasc : Pd.is_monotonic_increasing (index DataDF) = true) :
  let clipped := fst (ClipData DataDF startDate endDate) in
  clipped = filter (in_window startDate endDate) DataDF
  /\ (forall r, In r clipped <->
                In r DataDF
                /\ Ts.le startDate (Date r) /\ Ts.le (Date r) endDate)
  /\ (Ts.le startDate endDate ->
      (exists r, In r DataDF /\ Date r = startDate) ->
      exists first rest, clipped = first :: rest /\ Date first = startDate)
  /\ Forall (fun r => Ts.le (Date r) endDate) clipped
  /\ List.length clipped
     = List.length (filter (in_window startDate endDate) DataDF).
Proof.
  intros clipped. subst clipped.
  rewrite ClipData_window by exact Hasc. cbn [fst].
  assert (Hin : forall r, In r (filter (in_window startDate endDate) DataDF)
                  <-> In r DataDF
                      /\ Ts.le startDate (Date r) /\ Ts.le (Date r) endDate).
  { intros r. rewrite filter_In, in_window_spec. tauto. }
  split; [reflexivity |]. split; [exact Hin |]. split; [| split].
  - intros Hse [r0 [Hr0 Hd0]].
    assert (Hkept : In r0 (filter (in_window startDate endDate) DataDF)).
    { apply Hin. rewrite Hd0. split; [exact Hr0 |].
      split; [apply Ts_le_refl | exact Hse]. }
    destruct (filter (in_window startDate endDate) DataDF) as [|h t] eqn:Hf;
      [destruct Hkept |].
    exists h, t. split; [reflexivity |].
    assert (Hh : In h (h :: t)) by (left; reflexivity).
    apply Hin in Hh. destruct Hh as [_ [Hsh _]].
    apply Ts_le_antisym; [| exact Hsh].
    rewrite <- Hd0.
    apply (filter_head_earliest _ _ _ _ Hasc Hf r0 Hr0).
    apply in_window_spec. rewrite Hd0.
    split; [apply Ts_le_refl | exact Hse].
  - apply Forall_forall. intros r Hr. apply Hin in Hr. tauto.
  - reflexivity.
Qed.

Lemma ClipData_inclusive_window_witness :
  Pd.is_monotonic_increasing (index Sample.daily) = true
  /\ fst (ClipData Sample.daily Sample.startDate Sample.endDate)
     = [ Sample.row 2014 10 1 (Some 95%Q); Sample.row 2014 10 2 None;
         Sample.row 2017 3 14 (Some 410%Q); Sample.row 2019 9 29 (Some 77%Q);
         Sample.row 2019 9 30 None ].
Proof.
  split; [reflexivity |].
  exact (proj1 (ClipData_inclusive_window Sample.daily Sample.startDate
                  Sample.endDate eq_refl)).
Defined.

(** C5. On a date-indexed (ascending) table, a window whose start is after
    its end, or that ends before every row, or that starts after every
    row, clips to the empty table with a missing-value count of 0;
    [ClipData] returns normally. *)
Theorem ClipData_empty_range
    (DataDF : DataFrame) (startDate endDate : Timestamp)
    (Hasc : Pd.is_monotonic_increasing (index DataDF) = true)
    (Hout : Ts.lt endDate startDate
            \/ Forall (fun r => Ts.lt endDate (Date r)) DataDF
            \/ Forall (fun r => Ts.lt (Date r) startDate) DataDF) :
  ClipData DataDF startDate endDate = ([], 0%nat).
Proof.
  rewrite ClipData_window by exact Hasc.
  assert (Hnil : filter (in_window startDate endDate) DataDF = []).
  { destruct (filter (in_window startDate endDate) DataDF) as [|h t] eqn:Hf;
      [reflexivity | exfalso].
    assert (Hh : In h (filter (in_window startDate endDate) DataDF))
      by (rewrite Hf; left; reflexivity).
    apply filter_In in Hh. destruct Hh as [Hh Hw].
    apply in_window_spec in Hw. destruct Hw as [Hs He].
    destruct Hout as [Hes | [Hafter | Hbefore]].
    - ts_order.
    - rewrite Forall_forall in Hafter. specialize (Hafter h Hh).
      cbv beta in Hafter. ts_order.
    - rewrite Forall_forall in Hbefore. specialize (Hbefore h Hh).
      cbv beta in Hbefore. ts_order. }
  rewrite Hnil. reflexivity.
Qed.

Lemma ClipData_empty_range_witness :
  ClipData Sample.daily Sample.endDate Sample.startDate = ([], 0%nat)
  /\ ClipData Sample.daily (mkTimestamp 1930 1 1) (mkTimestamp 1931 12 31)
     = ([], 0%nat)
  /\ ClipData Sample.daily (mkTimestamp 2021 1 1) (mkTimestamp 2021 12 31)
     = ([], 0%nat).
Proof.
  split; [| split].
  - apply (ClipData_empty_range Sample.daily Sample.endDate Sample.startDate);
      [reflexivity |].
    left. unfold Ts.lt, Sample.startDate, Sample.endDate; simpl. lia.
  - apply ClipData_empty_range; [reflexivity |].
    right; left. unfold Sample.daily, Sample.row, Ts.lt.
    repeat constructor; simpl; lia.
  - apply ClipData_empty_range; [reflexivity |].
    right; right. unfold Sample.daily, Sample.row, Ts.lt.
    repeat constructor; simpl; lia.
Defined.

(** C6. [ClipData] is idempotent on a date-indexed (ascending) table:
    clipping the clipped table to the same window returns the same table
    and the same missing-value count. *)
Theorem ClipData_idempotent
    (DataDF : DataFrame) (startDate endDate : Timestamp)
    (Hasc : Pd.is_monotonic_increasing (index DataDF) = true) :
  ClipData (fst (ClipData DataDF startDate endDate)) startDate endDate
  = ClipData DataDF startDate endDate.
Proof.
  rewrite (ClipData_window DataDF) by exact Hasc. cbn [fst].
  rewrite ClipData_window by (apply monotonic_filter; exact Hasc).
  rewrite filter_idempotent. reflexivity.
Qed.

Lemma ClipData_idempotent_witness :
  ClipData (fst (ClipData Sample.daily Sample.startDate Sample.endDate))
           Sample.startDate Sample.endDate
  = ClipData Sample.daily Sample.startDate Sample.endDate.
Proof.
  apply (ClipData_idempotent Sample.daily Sample.startDate Sample.endDate).
  reflexivity.
Defined.

(** ** ReadData *)

Lemma is_na_Eqp (s : string) :
  Csv.is_na ["Eqp"%string] s = true
  <-> s = "Eqp"%string \/ In s Csv.default_na_values.
Proof.
  unfold Csv.is_na. rewrite existsb_exists. split.
  - intros [x [Hx Heq]]. apply String.eqb_eq in Heq. subst x.
    destruct Hx as [Hx | Hx]; [left; symmetry; exact Hx | right; exact Hx].
  - intros [-> | Hs].
    + exists "Eqp"%string. split; [left; reflexivity | apply String.eqb_refl].
    + exists s. split; [right; exact Hs | apply String.eqb_refl].
Qed.

Lemma parse_float_column_ok (ts : list Token) :
  Forall numeric_or_missing ts ->
  Csv.parse_float_column ["Eqp"%string] ts = Some (map field_value ts).
Proof.
  induction 1 as [|t ts Ht _ IH]; [reflexivity |].
  cbn [Csv.parse_float_column map]. rewrite IH.
  destruct t as [v | s]; [reflexivity |].
  cbn [Csv.parse_field field_value].
  apply is_na_Eqp in Ht. rewrite Ht. reflexivity.
Qed.

Lemma frame_rows (file : RawFile) :
  Csv.frame file (map field_value (map raw_Discharge file))
  = map parsed_row file.
Proof.
  unfold Csv.frame.
  induction file as [|raw file IH]; [reflexivity |].
  cbn [map combine]. rewrite IH. reflexivity.
Qed.

Lemma read_csv_ok (file : RawFile) :
  Forall numeric_or_missing (map raw_Discharge file) ->
  Csv.read_csv ["Eqp"%string] file = Some (map parsed_row file).
Proof.
  intros Hwf. unfold Csv.read_csv.
  rewrite parse_float_column_ok by exact Hwf.
  cbn [option_map]. rewrite frame_rows. reflexivity.
Qed.

Lemma mask_series_lt (file : RawFile) :
  set_Discharge (map parsed_row file)
    (Pd.mask (Discharge_column (map parsed_row file))
             (Pd.series_lt (Discharge_column (map parsed_row file)) 0%Q)
             None)
  = map screened_row file.
Proof.
  unfold set_Discharge, Pd.mask, Pd.series_lt, Discharge_column.
  induction file as [|raw file IH]; [reflexivity |].
  cbn [map combine]. rewrite IH. f_equal.
  unfold screened_row, parsed_row. cbn [fst snd agency_cd site_no Date
                                         Discharge Quality]. f_equal.
  destruct (raw_Discharge raw) as [v | s]; cbn [field_value screened_value];
    reflexivity.
Qed.

(** On a file whose discharge fields are numbers or NA markers [ReadData]
    returns, row for row, the screened rows and the number of them that
    are absent. *)
Lemma ReadData_returns (file : RawFile) :
  Forall numeric_or_missing (map raw_Discharge file) ->
  ReadData file
  = Returned (map screened_row file,
              List.length (filter absent (map screened_row file))).
Proof.
  intros Hwf. unfold ReadData. rewrite read_csv_ok by exact Hwf.
  cbv zeta. rewrite mask_series_lt, isna_sum. reflexivity.
Qed.

Lemma Qlt_bool_lt (v c : Q) : Pd.Qlt_bool v c = true <-> (v < c)%Q.
Proof.
  unfold Pd.Qlt_bool. rewrite negb_true_iff. split.
  - intros H. apply Qnot_le_lt. intros Hle.
    apply Qle_bool_iff in Hle. congruence.
  - intros H. destruct (Qle_bool c v) eqn:Hle; [| reflexivity].
    apply Qle_bool_iff in Hle. exfalso. exact (Qlt_not_le _ _ H Hle).
Qed.

Lemma Qlt_bool_ge (v c : Q) : Pd.Qlt_bool v c = false <-> (c <= v)%Q.
Proof.
  unfold Pd.Qlt_bool. rewrite negb_false_iff. apply Qle_bool_iff.
Qed.

Lemma screened_rows_nth (file : RawFile) (i : nat) (raw : RawRow) :
  nth_error file i = Some raw ->
  nth_error (map screened_row file) i = Some (screened_row raw).
Proof. intros H. apply map_nth_error. exact H. Qed.

Lemma absent_screened_row (raw : RawRow) :
  absent (screened_row raw)
  = is_negative (raw_Discharge raw) || negb (is_number (raw_Discharge raw)).
Proof.
  unfold absent, screened_row. cbn [Discharge].
  destruct (raw_Discharge raw) as [v | s];
    cbn [screened_value is_negative is_number negb].
  - destruct (Pd.Qlt_bool v 0); reflexivity.
  - reflexivity.
Qed.

Lemma absent_count_split (file : RawFile) :
  List.length (filter absent (map screened_row file))
  = (count_fields is_negative file
     + count_fields (fun t => negb (is_number t)) file)%nat.
Proof.
  unfold count_fields.
  induction file as [|raw file IH]; [reflexivity |].
  cbn [map filter]. rewrite absent_screened_row.
  destruct (raw_Discharge raw) as [v | s];
    cbn [is_negative is_number negb orb].
  - rewrite orb_false_r.
    destruct (Pd.Qlt_bool v 0); cbn [List.length]; rewrite IH; lia.
  - cbn [List.length]. rewrite IH. lia.
Qed.

(** C1. On a file whose discharge fields are numbers or NA markers,
    [ReadData] returns a table with one row per file row in which every
    number below zero has become absent and every number at or above zero
    is unchanged; the returned missing-value count is taken after this
    screen, so it counts the negative numbers together with the NA
    markers. *)
Theorem ReadData_gross_error_screen (file : RawFile)
    (Hwf : Forall numeric_or_missing (map raw_Discharge file)) :
  exists DataDF MissingValues,
    ReadData file = Returned (DataDF, MissingValues)
    /\ List.length DataDF = List.length file
    /\ (forall i raw v,
          nth_error file i = Some raw ->
          raw_Discharge raw = Numeric v ->
          exists r,
            nth_error DataDF i = Some r
            /\ Date r = raw_Date raw
            /\ ((v < 0)%Q -> Discharge r = None)
            /\ ((0 <= v)%Q -> Discharge r = Some v))
    /\ MissingValues
       = (count_fields is_negative file
          + count_fields (fun t => negb (is_number t)) file)%nat.
Proof.
  exists (map screened_row file),
         (List.length (filter absent (map screened_row file))).
  split; [apply ReadData_returns; exact Hwf |].
  split; [apply length_map |].
  split; [| apply absent_count_split].
  intros i raw v Hi Hv. exists (screened_row raw).
  split; [apply screened_rows_nth; exact Hi |].
  split; [reflexivity |].
  unfold screened_row. cbn [Discharge]. rewrite Hv. cbn [screened_value].
  split; intros Hsign.
  - apply Qlt_bool_lt in Hsign. rewrite Hsign. reflexivity.
  - apply Qlt_bool_ge in Hsign. rewrite Hsign. reflexivity.
Qed.

Lemma ReadData_gross_error_screen_witness :
  exists DataDF MissingValues,
    ReadData SampleFile.lines = Returned (DataDF, MissingValues)
    /\ List.length DataDF = 6%nat
    /\ MissingValues = 3%nat.
Proof.
  destruct (ReadData_gross_error_screen SampleFile.lines) as
    [DataDF [MissingValues [Hret [Hlen [_ Hcount]]]]].
  - unfold SampleFile.lines, SampleFile.line. cbn [map raw_Discharge].
    repeat constructor; cbn [numeric_or_missing In]; tauto.
  - exists DataDF, MissingValues.
    split; [exact Hret |]. split; [exact Hlen | exact Hcount].
Defined.

(** "Eqp" is not among the default NA markers: it is the [na_values]
    argument that makes it one. *)
Lemma default_na_not_Eqp (s : string) :
  In s Csv.default_na_values -> String.eqb s "Eqp" = false.
Proof.
  unfold Csv.default_na_values. cbn [In]. intros H.
  repeat (destruct H as [<- | H]; [reflexivity |]). destruct H.
Qed.

Lemma Eqp_alone_is_object :
  Csv.parse_float_column [] [Text "Eqp"] = None.
Proof. reflexivity. Qed.

Lemma missing_fields_split (file : RawFile) :
  Forall numeric_or_missing (map raw_Discharge file) ->
  count_fields (fun t => negb (is_number t)) file
  = (count_fields is_Eqp file + count_fields is_default_na file)%nat.
Proof.
  unfold count_fields. generalize (map raw_Discharge file) as ts.
  induction 1 as [|t ts Ht _ IH]; [reflexivity |].
  cbn [filter]. destruct t as [v | s];
    cbn [is_number is_Eqp is_default_na negb].
  - exact IH.
  - cbn [numeric_or_missing] in Ht. destruct Ht as [-> | Hs].
    + cbn. cbn in IH. rewrite IH. reflexivity.
    + rewrite (default_na_not_Eqp s Hs).
      replace (existsb (String.eqb s) Csv.default_na_values) with true.
      * cbn [List.length]. rewrite IH. lia.
      * symmetry. apply existsb_exists. exists s.
        split; [exact Hs | apply String.eqb_refl].
Qed.

(** C9. On a file whose discharge fields are numbers or NA markers, every
    "Eqp" field, like every default NA field, is an absent discharge in
    the table [ReadData] returns, and the returned missing-value count
    counts the "Eqp" fields together with the default NA fields and the
    screened negative numbers. *)
Theorem ReadData_Eqp_sentinel (file : RawFile)
    (Hwf : Forall numeric_or_missing (map raw_Discharge file)) :
  exists DataDF MissingValues,
    ReadData file = Returned (DataDF, MissingValues)
    /\ (forall i raw,
          nth_error file i = Some raw ->
          raw_Discharge raw = Text "Eqp"
          \/ is_default_na (raw_Discharge raw) = true ->
          exists r,
            nth_error DataDF i = Some r
            /\ Date r = raw_Date raw
            /\ Discharge r = None)
    /\ MissingValues
       = (count_fields is_Eqp file + count_fields is_default_na file
          + count_fields is_negative file)%nat.
Proof.
  exists (map screened_row file),
         (List.length (filter absent (map screened_row file))).
  split; [apply ReadData_returns; exact Hwf |]. split.
  - intros i raw Hi Hna. exists (screened_row raw).
    split; [apply screened_rows_nth; exact Hi |].
    split; [reflexivity |].
    unfold screened_row. cbn [Discharge].
    destruct Hna as [-> | Hna]; [reflexivity |].
    destruct (raw_Discharge raw) as [v | s]; [discriminate | reflexivity].
  - rewrite absent_count_split, missing_fields_split by exact Hwf. lia.
Qed.

Lemma ReadData_Eqp_sentinel_witness :
  exists DataDF MissingValues r,
    ReadData SampleFile.lines = Returned (DataDF, MissingValues)
    /\ nth_error DataDF 2 = Some r
    /\ Discharge r = None
    /\ MissingValues = 3%nat.
Proof.
  destruct (ReadData_Eqp_sentinel SampleFile.lines) as
    [DataDF [MissingValues [Hret [Hna Hcount]]]].
  - unfold SampleFile.lines, SampleFile.line. cbn [map raw_Discharge].
    repeat constructor; cbn [numeric_or_missing In]; tauto.
  - destruct (Hna 2%nat (SampleFile.line 1954 6 3 (Text "Eqp")) eq_refl
                (or_introl eq_refl)) as [r [Hr [_ Hd]]].
    exists DataDF, MissingValues, r.
    split; [exact Hret |]. split; [exact Hr |]. split; [exact Hd |].
    exact Hcount.
Defined.

(** C3. The missing-value count [ReadData] returns is the number of
    absent discharge entries of the table it returns, and the count
    [ClipData] returns is the number of absent entries of the clipped
    table it returns: each is computed from the returned table alone, so
    two calls that return the same table return the same count. *)
Theorem MissingValues_counts_absent :
  (forall file DataDF MissingValues,
      ReadData file = Returned (DataDF, MissingValues) ->
      MissingValues = List.length (filter absent DataDF))
  /\ (forall DataDF startDate endDate,
        snd (ClipData DataDF startDate endDate)
        = List.length (filter absent (fst (ClipData DataDF startDate endDate))))
  /\ (forall DataDF1 DataDF2 s1 e1 s2 e2,
        fst (ClipData DataDF1 s1 e1) = fst (ClipData DataDF2 s2 e2) ->
        snd (ClipData DataDF1 s1 e1) = snd (ClipData DataDF2 s2 e2)).
Proof.
  assert (Hclip : forall DataDF startDate endDate,
             snd (ClipData DataDF startDate endDate)
             = List.length
                 (filter absent (fst (ClipData DataDF startDate endDate)))).
  { intros. unfold ClipData. cbn [fst snd]. apply isna_sum. }
  split; [| split].
  - intros file DataDF MissingValues Hret. unfold ReadData in Hret.
    destruct (Csv.read_csv ["Eqp"%string] file) as [DataDF0 |];
      [| discriminate].
    cbv zeta in Hret. inversion Hret; subst. apply isna_sum.
  - exact Hclip.
  - intros DataDF1 DataDF2 s1 e1 s2 e2 Heq.
    rewrite !Hclip, Heq. reflexivity.
Qed.

Lemma MissingValues_counts_absent_witness :
  exists DataDF,
    ReadData SampleFile.lines = Returned (DataDF, 3%nat)
    /\ 3%nat = List.length (filter absent DataDF)
    /\ snd (ClipData Sample.daily Sample.startDate Sample.endDate) = 2%nat.
Proof.
  exists (map screened_row SampleFile.lines).
  split; [reflexivity |]. split.
  - apply (proj1 MissingValues_counts_absent SampleFile.lines). reflexivity.
  - rewrite (proj1 (proj2 MissingValues_counts_absent)). reflexivity.
Defined.

(** ** Group keys *)

Lemma insert_key_In (k x : Z) (ks : list Z) :
  In x (Agg.insert_key k ks) <-> x = k \/ In x ks.
Proof.
  induction ks as [|y ks IH]; cbn [Agg.insert_key In].
  - intuition.
  - destruct (k <? y) eqn:Hlt; [cbn [In]; intuition |].
    destruct (k =? y) eqn:Heq.
    + apply Z.eqb_eq in Heq. subst y. cbn [In]. intuition.
    + cbn [In]. rewrite IH. intuition.
Qed.

Lemma insert_key_sorted (k : Z) (ks : list Z) :
  StronglySorted Z.lt ks -> StronglySorted Z.lt (Agg.insert_key k ks).
Proof.
  induction 1 as [|y ks Hs IH Hall]; cbn [Agg.insert_key].
  - repeat constructor.
  - destruct (k <? y) eqn:Hlt.
    + apply Z.ltb_lt in Hlt. constructor; [constructor; assumption |].
      constructor; [exact Hlt |].
      eapply Forall_impl; [| exact Hall]. intros z Hz. cbv beta in Hz. lia.
    + destruct (k =? y) eqn:Heq; [constructor; assumption |].
      apply Z.ltb_ge in Hlt. apply Z.eqb_neq in Heq.
      constructor; [exact IH |].
      apply Forall_forall. intros z Hz. apply insert_key_In in Hz.
      destruct Hz as [-> | Hz]; [lia |].
      rewrite Forall_forall in Hall. apply Hall. exact Hz.
Qed.

Lemma group_keys_In (x : Z) (l : list Z) :
  In x (Agg.group_keys l) <-> In x l.
Proof.
  unfold Agg.group_keys. induction l as [|y l IH]; cbn [fold_right In].
  - tauto.
  - rewrite insert_key_In, IH. intuition.
Qed.

Lemma group_keys_sorted (l : list Z) :
  StronglySorted Z.lt (Agg.group_keys l).
Proof.
  unfold Agg.group_keys. induction l as [|y l IH]; cbn [fold_right].
  - constructor.
  - apply insert_key_sorted. exact IH.
Qed.

Lemma sorted_NoDup (l : list Z) : StronglySorted Z.lt l -> NoDup l.
Proof.
  induction 1 as [|y l Hs IH Hall]; constructor; [| exact IH].
  intros Hin. rewrite Forall_forall in Hall. specialize (Hall y Hin). lia.
Qed.

(** Two ascending lists without repetition that have the same elements
    are the same list. *)
Lemma sorted_same_elements (l1 l2 : list Z) :
  StronglySorted Z.lt l1 -> StronglySorted Z.lt l2 ->
  (forall x, In x l1 <-> In x l2) -> l1 = l2.
Proof.
  intros H1. revert l2.
  induction H1 as [|a l1 Hs1 IH Hall1]; intros l2 H2 Hsame.
  - destruct l2 as [|b l2]; [reflexivity |].
    exfalso. apply (proj2 (Hsame b)). left; reflexivity.
  - destruct H2 as [|b l2 Hs2 Hall2].
    + exfalso. apply (proj1 (Hsame a)). left; reflexivity.
    + rewrite Forall_forall in Hall1, Hall2.
      assert (Hab : a = b).
      { destruct (proj1 (Hsame a) (or_introl eq_refl)) as [Hba | Ha2];
          [symmetry; exact Hba |].
        destruct (proj2 (Hsame b) (or_introl eq_refl)) as [Hab | Hb1];
          [exact Hab |].
        specialize (Hall1 b Hb1). specialize (Hall2 a Ha2). lia. }
      subst b. f_equal. apply IH; [exact Hs2 |].
      intros x. split; intros Hx.
      * destruct (proj1 (Hsame x) (or_intror Hx)) as [Hax | Hx2];
          [| exact Hx2].
        specialize (Hall1 x Hx). lia.
      * destruct (proj2 (Hsame x) (or_intror Hx)) as [Hax | Hx1];
          [| exact Hx1].
        specialize (Hall2 x Hx). lia.
Qed.

Lemma sorted_filter (f : Z -> bool) (l : list Z) :
  StronglySorted Z.lt l -> StronglySorted Z.lt (filter f l).
Proof.
  induction 1 as [|y l Hs IH Hall]; cbn [filter]; [constructor |].
  destruct (f y); [| exact IH].
  constructor; [exact IH |].
  rewrite Forall_forall in *. intros x Hx. apply filter_In in Hx.
  apply Hall. tauto.
Qed.

(** ** Month ranges *)

Lemma month_range_In (lo hi x : Z) :
  In x (Agg.month_range lo hi) <-> lo <= x <= hi.
Proof.
  unfold Agg.month_range. rewrite in_map_iff. split.
  - intros [k [Hk Hin]]. apply in_seq in Hin. lia.
  - intros Hx. exists (Z.to_nat (x - lo)). split; [lia |].
    apply in_seq. lia.
Qed.

Lemma seq_shift_sorted (lo : Z) (n start : nat) :
  StronglySorted Z.lt (map (fun k => lo + Z.of_nat k) (seq start n)).
Proof.
  revert start. induction n as [|n IH]; intros start; cbn [seq map].
  - constructor.
  - constructor; [apply IH |].
    apply Forall_forall. intros x Hx. apply in_map_iff in Hx.
    destruct Hx as [k [<- Hk]]. apply in_seq in Hk. lia.
Qed.

Lemma month_range_sorted (lo hi : Z) :
  StronglySorted Z.lt (Agg.month_range lo hi).
Proof. apply seq_shift_sorted. Qed.

Lemma fold_min_spec (l : list Z) (x : Z) :
  let m := fold_left Z.min l x in
  (m = x \/ In m l) /\ m <= x /\ Forall (fun y => m <= y) l.
Proof.
  revert x. induction l as [|y l IH]; intros x; cbn [fold_left].
  - split; [left; reflexivity |]. split; [lia | constructor].
  - specialize (IH (Z.min x y)). cbv zeta in IH.
    destruct IH as [Hin [Hle Hall]]. cbv zeta. split; [| split].
    + destruct Hin as [Hm | Hm]; [| right; right; exact Hm].
      destruct (Z.min_spec x y) as [[_ Hmin] | [_ Hmin]];
        [left | right; left]; lia.
    + lia.
    + constructor; [lia | exact Hall].
Qed.

Lemma fold_max_spec (l : list Z) (x : Z) :
  let m := fold_left Z.max l x in
  (m = x \/ In m l) /\ x <= m /\ Forall (fun y => y <= m) l.
Proof.
  revert x. induction l as [|y l IH]; intros x; cbn [fold_left].
  - split; [left; reflexivity |]. split; [lia | constructor].
  - specialize (IH (Z.max x y)). cbv zeta in IH.
    destruct IH as [Hin [Hle Hall]]. cbv zeta. split; [| split].
    + destruct Hin as [Hm | Hm]; [| right; right; exact Hm].
      destruct (Z.max_spec x y) as [[_ Hmax] | [_ Hmax]];
        [right; left | left]; lia.
    + lia.
    + constructor; [lia | exact Hall].
Qed.

Lemma minimum_spec (l : list Z) (lo : Z) :
  Agg.minimum l = Some lo -> In lo l /\ Forall (fun y => lo <= y) l.
Proof.
  destruct l as [|x l]; [discriminate |].
  cbn [Agg.minimum]. intros H. inversion H as [Hlo]; clear H.
  destruct (fold_min_spec l x) as [Hin [Hle Hall]]. cbv zeta in *.
  split; [destruct Hin as [Hm | Hm]; [left; symmetry; exact Hm | right; exact Hm] |].
  constructor; [exact Hle | exact Hall].
Qed.

Lemma maximum_spec (l : list Z) (hi : Z) :
  Agg.maximum l = Some hi -> In hi l /\ Forall (fun y => y <= hi) l.
Proof.
  destruct l as [|x l]; [discriminate |].
  cbn [Agg.maximum]. intros H. inversion H as [Hhi]; clear H.
  destruct (fold_max_spec l x) as [Hin [Hle Hall]]. cbv zeta in *.
  split; [destruct Hin as [Hm | Hm]; [left; symmetry; exact Hm | right; exact Hm] |].
  constructor; [exact Hle | exact Hall].
Qed.

(** ** Resampling to month starts *)

Lemma resample_MS_labels_range (df : DataFrame) :
  (df = [] /\ Agg.resample_MS_labels df = [])
  \/ exists lo hi,
       Agg.minimum (map Agg.month_ordinal (index df)) = Some lo
       /\ Agg.maximum (map Agg.month_ordinal (index df)) = Some hi
       /\ Agg.resample_MS_labels df
          = map Agg.month_start (Agg.month_range lo hi).
Proof.
  destruct df as [|r df]; [left; split; reflexivity |].
  right. unfold Agg.resample_MS_labels. cbn [index map].
  cbn [Agg.minimum Agg.maximum]. eexists. eexists.
  split; [reflexivity |]. split; reflexivity.
Qed.

(** Quotient and remainder of a month position by 12, for [lia]. *)
Ltac div_mod_12 o :=
  pose proof (Z.div_mod o 12 ltac:(lia));
  pose proof (Z.mod_pos_bound o 12 ltac:(lia)).

Lemma month_start_ordinal (o : Z) :
  Agg.month_ordinal (Agg.month_start o) = o.
Proof.
  unfold Agg.month_ordinal, Agg.month_start. cbn [year month].
  div_mod_12 o. lia.
Qed.

Lemma month_start_month (o : Z) :
  month (Agg.month_start o) = Spec.calendar_month o.
Proof. reflexivity. Qed.

Lemma calendar_month_bounds (o : Z) : 1 <= Spec.calendar_month o <= 12.
Proof. unfold Spec.calendar_month. div_mod_12 o. lia. Qed.

(** The rows of a bin are the rows at the bin's month position. *)
Lemma in_bin_month_start (o : Z) (r : Row) :
  Spec.calendar_date (Date r) ->
  Agg.in_bin (Agg.month_start o) r = (Agg.month_ordinal (Date r) =? o).
Proof.
  unfold Spec.calendar_date, Agg.in_bin, Agg.month_start, Agg.month_ordinal.
  cbn [year month]. intros Hm. apply eq_iff_eq_true.
  rewrite andb_true_iff, !Z.eqb_eq. div_mod_12 o. lia.
Qed.

Lemma bin_mean_bucket_mean (df : DataFrame) (o : Z) :
  Forall Spec.calendar_date (index df) ->
  Agg.nanmean (Discharge_column (filter (Agg.in_bin (Agg.month_start o)) df))
  = Bins.mean_at df o.
Proof.
  intros Hcal. unfold Bins.mean_at. do 2 f_equal.
  apply filter_ext_in. intros r Hr. apply in_bin_month_start.
  rewrite Forall_forall in Hcal. apply Hcal. apply in_map. exact Hr.
Qed.

Lemma month_keyed_keys (df : DataFrame) :
  map fst (month_keyed df) = map month (Agg.resample_MS_labels df).
Proof.
  unfold month_keyed, Agg.resample_MS_mean. rewrite !map_map. reflexivity.
Qed.

Lemma month_keyed_values (df : DataFrame) (m : Z) :
  map snd (filter (fun kv : Z * option Q => fst kv =? m) (month_keyed df))
  = map (fun lbl =>
           Agg.nanmean (Discharge_column (filter (Agg.in_bin lbl) df)))
        (filter (fun lbl => month lbl =? m) (Agg.resample_MS_labels df)).
Proof.
  unfold month_keyed, Agg.resample_MS_mean.
  induction (Agg.resample_MS_labels df) as [|lbl lbls IH]; [reflexivity |].
  cbn [map filter fst snd].
  destruct (month lbl =? m); cbn [map snd]; rewrite IH; reflexivity.
Qed.

Lemma filter_map_month_start (m : Z) (R : list Z) :
  filter (fun lbl => month lbl =? m) (map Agg.month_start R)
  = map Agg.month_start (filter (fun o => Spec.calendar_month o =? m) R).
Proof.
  induction R as [|o R IH]; [reflexivity |].
  cbn [map filter]. rewrite month_start_month.
  destruct (Spec.calendar_month o =? m); cbn [map]; rewrite IH; reflexivity.
Qed.

Lemma GetMonthlyStatistics_unfold (df : DataFrame) :
  GetMonthlyStatistics df = Agg.groupby_mean (month_keyed df).
Proof. reflexivity. Qed.

Lemma GetMonthlyStatistics_index (df : DataFrame) :
  map fst (GetMonthlyStatistics df)
  = Agg.group_keys (map month (Agg.resample_MS_labels df)).
Proof.
  rewrite GetMonthlyStatistics_unfold. unfold Agg.groupby_mean.
  rewrite map_map. cbn [fst]. rewrite map_id, month_keyed_keys. reflexivity.
Qed.

Lemma GetMonthlyStatistics_value (df : DataFrame) (m : Z) (v : option Q) :
  In (m, v) (GetMonthlyStatistics df) ->
  v = Agg.nanmean
        (map snd (filter (fun kv : Z * option Q => fst kv =? m)
                         (month_keyed df))).
Proof.
  rewrite GetMonthlyStatistics_unfold. unfold Agg.groupby_mean.
  intros Hin. apply in_map_iff in Hin. destruct Hin as [k [Heq _]].
  inversion Heq; subst. reflexivity.
Qed.

(** ** The buckets of the specification inside the resampled bins *)

Lemma has_rows_In (df : DataFrame) (o : Z) :
  Bins.has_rows df o = true <-> In o (map Agg.month_ordinal (index df)).
Proof.
  unfold Bins.has_rows. rewrite existsb_exists. split.
  - intros [x [Hx Heq]]. apply Z.eqb_eq in Heq. subst x. exact Hx.
  - intros Hin. exists o. split; [exact Hin | apply Z.eqb_refl].
Qed.

Lemma buckets_in_range (df : DataFrame) (lo hi : Z) :
  Agg.minimum (map Agg.month_ordinal (index df)) = Some lo ->
  Agg.maximum (map Agg.month_ordinal (index df)) = Some hi ->
  Bins.positions df = filter (Bins.has_rows df) (Agg.month_range lo hi).
Proof.
  intros Hlo Hhi. unfold Bins.positions.
  apply minimum_spec in Hlo. apply maximum_spec in Hhi.
  destruct Hlo as [_ Hlo]. destruct Hhi as [_ Hhi].
  rewrite Forall_forall in Hlo, Hhi.
  apply sorted_same_elements.
  - apply group_keys_sorted.
  - apply sorted_filter, month_range_sorted.
  - intros x. rewrite group_keys_In, filter_In, month_range_In, has_rows_In.
    split; [| tauto]. intros Hx. split; [| exact Hx].
    split; [apply Hlo | apply Hhi]; exact Hx.
Qed.

Lemma bucket_mean_no_rows (df : DataFrame) (o : Z) :
  Bins.has_rows df o = false -> Bins.mean_at df o = None.
Proof.
  intros Hno. unfold Bins.mean_at.
  replace (filter (fun r => Agg.month_ordinal (Date r) =? o) df) with (@nil Row);
    [reflexivity |].
  symmetry. 
  destruct (filter (fun r => Agg.month_ordinal (Date r) =? o) df)
    as [|r rest] eqn:Hf; [reflexivity | exfalso].
  assert (Hr : In r (filter (fun r => Agg.month_ordinal (Date r) =? o) df))
    by (rewrite Hf; left; reflexivity).
  apply filter_In in Hr. destruct Hr as [Hr Ho]. apply Z.eqb_eq in Ho.
  assert (Hin : Bins.has_rows df o = true).
  { apply has_rows_In. unfold index. rewrite map_map.
    apply in_map_iff. exists r. split; [exact Ho | exact Hr]. }
  congruence.
Qed.

(** Bins without a value contribute nothing to a mean. *)
Lemma dropna_skip_empty_bins (g : Z -> option Q) (keep P : Z -> bool)
    (R : list Z) :
  (forall o, keep o = false -> g o = None) ->
  Agg.dropna (map g (filter P (filter keep R)))
  = Agg.dropna (map g (filter P R)).
Proof.
  intros Hnone. induction R as [|o R IH]; [reflexivity |].
  cbn [filter]. destruct (keep o) eqn:Hk.
  - cbn [filter]. destruct (P o); [| exact IH].
    cbn [map Agg.dropna flat_map]. unfold Agg.dropna in IH. rewrite IH.
    reflexivity.
  - destruct (P o); [| exact IH].
    cbn [map Agg.dropna flat_map]. rewrite (Hnone o Hk). cbn [app].
    exact IH.
Qed.

Lemma nanmean_dropna (l1 l2 : list (option Q)) :
  Agg.dropna l1 = Agg.dropna l2 -> Agg.nanmean l1 = Agg.nanmean l2.
Proof. unfold Agg.nanmean. intros ->. reflexivity. Qed.

(** The value of a month of the profile is the mean, over the buckets of
    that calendar month, of the bucket means. *)
Lemma GetMonthlyStatistics_profile_value
    (df : DataFrame) (m : Z) (v : option Q) :
  Forall Spec.calendar_date (index df) ->
  In (m, v) (GetMonthlyStatistics df) ->
  v = Bins.monthly_profile df m.
Proof.
  intros Hcal Hin. apply GetMonthlyStatistics_value in Hin. subst v.
  rewrite month_keyed_values. unfold Bins.monthly_profile, Bins.monthly_means.
  destruct (resample_MS_labels_range df) as [[-> _] | [lo [hi [Hlo [Hhi Hl]]]]];
    [reflexivity |].
  rewrite Hl, filter_map_month_start, map_map.
  rewrite (buckets_in_range df lo hi Hlo Hhi).
  apply nanmean_dropna.
  rewrite (dropna_skip_empty_bins (Bins.mean_at df) (Bins.has_rows df))
    by (apply bucket_mean_no_rows).
  f_equal. apply map_ext. intros o. apply bin_mean_bucket_mean. exact Hcal.
Qed.

(** ** The index of the monthly profile *)

Lemma row_ordinal_In (df : DataFrame) (o : Z) :
  In o (map Agg.month_ordinal (index df))
  <-> exists r, In r df /\ Agg.month_ordinal (Date r) = o.
Proof.
  unfold index. rewrite map_map, in_map_iff. split.
  - intros [r [Ho Hr]]. exists r. tauto.
  - intros [r [Hr Ho]]. exists r. tauto.
Qed.

(** A month number is in the index exactly when a month of that number
    lies between the months of two rows of the table. *)
Lemma GetMonthlyStatistics_index_In (df : DataFrame) (m : Z) :
  In m (map fst (GetMonthlyStatistics df))
  <-> exists r1 r2 o,
        In r1 df /\ In r2 df
        /\ Agg.month_ordinal (Date r1) <= o <= Agg.month_ordinal (Date r2)
        /\ Spec.calendar_month o = m.
Proof.
  rewrite GetMonthlyStatistics_index, group_keys_In, in_map_iff.
  destruct (resample_MS_labels_range df) as [[-> Hl] | [lo [hi [Hlo [Hhi Hl]]]]].
  - split.
    + intros [lbl [_ Hin]]. destruct Hin.
    + intros [r1 [_ [_ [Hin _]]]]. destruct Hin.
  - rewrite Hl.
    apply minimum_spec in Hlo. apply maximum_spec in Hhi.
    destruct Hlo as [Hlo_in Hlo]. destruct Hhi as [Hhi_in Hhi].
    rewrite Forall_forall in Hlo, Hhi. split.
    + intros [lbl [Hm Hin]]. apply in_map_iff in Hin.
      destruct Hin as [o [<- Ho]]. apply month_range_In in Ho.
      apply row_ordinal_In in Hlo_in. destruct Hlo_in as [r1 [Hr1 Ho1]].
      apply row_ordinal_In in Hhi_in. destruct Hhi_in as [r2 [Hr2 Ho2]].
      exists r1, r2, o. rewrite Ho1, Ho2. tauto.
    + intros [r1 [r2 [o [Hr1 [Hr2 [Ho Hm]]]]]].
      exists (Agg.month_start o). split; [exact Hm |].
      apply in_map. apply month_range_In.
      assert (H1 : lo <= Agg.month_ordinal (Date r1)).
      { apply Hlo. apply row_ordinal_In. exists r1. tauto. }
      assert (H2 : Agg.month_ordinal (Date r2) <= hi).
      { apply Hhi. apply row_ordinal_In. exists r2. tauto. }
      lia.
Qed.

Lemma calendar_month_ordinal (t : Timestamp) :
  Spec.calendar_date t -> Spec.calendar_month (Agg.month_ordinal t) = month t.
Proof.
  unfold Spec.calendar_date, Spec.calendar_month, Agg.month_ordinal.
  intros Hm. div_mod_12 (year t * 12 + (month t - 1)). lia.
Qed.

Lemma In_index_entry (df : DataFrame) (m : Z) :
  In m (map fst (GetMonthlyStatistics df)) ->
  exists v, In (m, v) (GetMonthlyStatistics df).
Proof.
  intros Hin. apply in_map_iff in Hin. destruct Hin as [[k v] [Hk Hin]].
  cbn [fst] in Hk. subst k. exists v. exact Hin.
Qed.

(** A month in which a row falls is in the index. *)
Lemma GetMonthlyStatistics_row_month (df : DataFrame) (r : Row) :
  Forall Spec.calendar_date (index df) ->
  In r df -> In (month (Date r)) (map fst (GetMonthlyStatistics df)).
Proof.
  intros Hcal Hr. apply GetMonthlyStatistics_index_In.
  exists r, r, (Agg.month_ordinal (Date r)).
  split; [exact Hr |]. split; [exact Hr |]. split; [lia |].
  apply calendar_month_ordinal.
  rewrite Forall_forall in Hcal. apply Hcal. apply in_map. exact Hr.
Qed.

(** ** The mean of the code and the mean of the specification *)

Lemma same_value_refl (a : option Q) : Spec.same_value a a.
Proof. destruct a; cbn; [reflexivity | exact I]. Qed.

Lemma same_value_trans (a b c : option Q) :
  Spec.same_value a b -> Spec.same_value b c -> Spec.same_value a c.
Proof.
  destruct a, b, c; cbn; try tauto. intros H1 H2. rewrite H1. exact H2.
Qed.

Lemma dropna_present (col : list (option Q)) :
  Agg.dropna col = Spec.present col.
Proof.
  unfold Agg.dropna. induction col as [|x col IH]; [reflexivity |].
  cbn [flat_map Spec.present]. rewrite IH. destruct x; reflexivity.
Qed.

Lemma fold_Qplus_total (vs : list Q) (a : Q) :
  (fold_left Qplus vs a == a + Spec.total vs)%Q.
Proof.
  revert a. induction vs as [|v vs IH]; intros a;
    cbn [fold_left Spec.total].
  - ring.
  - rewrite IH. ring.
Qed.

(** [nanmean] is the mean: the total of the values present over their
    number. *)
Lemma nanmean_mean (col : list (option Q)) :
  Spec.same_value (Agg.nanmean col) (Spec.mean col).
Proof.
  unfold Agg.nanmean, Spec.mean. rewrite dropna_present.
  destruct (Spec.present col) as [|v vs]; [exact I |].
  cbn [Spec.same_value]. unfold Agg.Qsum. rewrite fold_Qplus_total.
  apply Qdiv_comp; [ring | reflexivity].
Qed.

Lemma present_Forall2 (l1 l2 : list (option Q)) :
  Forall2 Spec.same_value l1 l2 ->
  Forall2 Qeq (Spec.present l1) (Spec.present l2).
Proof.
  induction 1 as [|a b l1 l2 Hab _ IH]; [constructor |].
  destruct a, b; cbn in Hab; try contradiction; cbn [Spec.present].
  - constructor; assumption.
  - exact IH.
Qed.

Lemma total_Forall2 (vs ws : list Q) :
  Forall2 Qeq vs ws -> (Spec.total vs == Spec.total ws)%Q.
Proof.
  induction 1 as [|v w vs ws Hvw _ IH]; cbn [Spec.total]; [reflexivity |].
  rewrite Hvw, IH. reflexivity.
Qed.

Lemma mean_of_values (vs ws : list Q) :
  (Spec.total vs == Spec.total ws)%Q ->
  List.length vs = List.length ws ->
  Spec.same_value
    match vs with
    | [] => None
    | v :: r =>
        Some (Spec.total (v :: r)
              / inject_Z (Z.of_nat (List.length (v :: r))))%Q
    end
    match ws with
    | [] => None
    | w :: r =>
        Some (Spec.total (w :: r)
              / inject_Z (Z.of_nat (List.length (w :: r))))%Q
    end.
Proof.
  intros Htot Hlen.
  destruct vs as [|v vs], ws as [|w ws]; try discriminate; [exact I |].
  cbn [Spec.same_value]. rewrite Htot, Hlen. reflexivity.
Qed.

Lemma mean_Forall2 (l1 l2 : list (option Q)) :
  Forall2 Spec.same_value l1 l2 ->
  Spec.same_value (Spec.mean l1) (Spec.mean l2).
Proof.
  intros H. apply present_Forall2 in H. unfold Spec.mean.
  apply mean_of_values; [apply total_Forall2; exact H |].
  eapply Forall2_length; exact H.
Qed.

Lemma present_perm (l1 l2 : list (option Q)) :
  Permutation l1 l2 -> Permutation (Spec.present l1) (Spec.present l2).
Proof.
  induction 1 as [| x l1 l2 _ IH | x y l | l1 l2 l3 _ IH1 _ IH2];
    cbn [Spec.present].
  - constructor.
  - destruct x; [apply perm_skip |]; exact IH.
  - destruct x, y; try reflexivity. apply perm_swap.
  - etransitivity; eassumption.
Qed.

Lemma total_perm (vs ws : list Q) :
  Permutation vs ws -> (Spec.total vs == Spec.total ws)%Q.
Proof.
  induction 1 as [| x l1 l2 _ IH | x y l | l1 l2 l3 _ IH1 _ IH2];
    cbn [Spec.total].
  - reflexivity.
  - rewrite IH. reflexivity.
  - ring.
  - rewrite IH1. exact IH2.
Qed.

(** The mean does not depend on the order of the values. *)
Lemma mean_perm (l1 l2 : list (option Q)) :
  Permutation l1 l2 -> Spec.same_value (Spec.mean l1) (Spec.mean l2).
Proof.
  intros H. apply present_perm in H. unfold Spec.mean.
  apply mean_of_values; [apply total_perm; exact H |].
  apply Permutation_length. exact H.
Qed.

(** ** The buckets of the specification and the bins of the code *)

Lemma same_bucket_eq (b c : Z * Z) : Spec.same_bucket b c = true <-> b = c.
Proof.
  unfold Spec.same_bucket. destruct b as [y m], c as [y' m']. cbn [fst snd].
  rewrite andb_true_iff, !Z.eqb_eq. split.
  - intros [-> ->]. reflexivity.
  - intros H. inversion H. auto.
Qed.

Lemma distinct_buckets_In (b : Z * Z) (bs : list (Z * Z)) :
  In b (Spec.distinct_buckets bs) <-> In b bs.
Proof.
  induction bs as [|c bs IH]; cbn [Spec.distinct_buckets In]; [tauto |].
  rewrite filter_In, IH. split.
  - intros [H | [H _]]; [left | right]; exact H.
  - intros [H | H]; [left; exact H |].
    destruct (Spec.same_bucket c b) eqn:Hcb.
    + left. apply same_bucket_eq. exact Hcb.
    + right. split; [exact H | reflexivity].
Qed.

Lemma distinct_buckets_NoDup (bs : list (Z * Z)) :
  NoDup (Spec.distinct_buckets bs).
Proof.
  induction bs as [|c bs IH]; cbn [Spec.distinct_buckets]; constructor.
  - intros Hin. apply filter_In in Hin. destruct Hin as [_ Hne].
    assert (Hcc : Spec.same_bucket c c = true)
      by (apply same_bucket_eq; reflexivity).
    rewrite Hcc in Hne. discriminate.
  - apply NoDup_filter. exact IH.
Qed.

Lemma position_of_bucket (t : Timestamp) :
  Bins.position_of (Spec.bucket_of t) = Agg.month_ordinal t.
Proof. reflexivity. Qed.

Lemma NoDup_map_on {A B : Type} (f : A -> B) (l : list A) :
  (forall x y, In x l -> In y l -> f x = f y -> x = y) ->
  NoDup l -> NoDup (map f l).
Proof.
  intros Hinj Hnd. induction Hnd as [|x l Hx Hnd IH]; cbn [map];
    constructor.
  - intros Hin. apply in_map_iff in Hin. destruct Hin as [y [Hfy Hy]].
    assert (y = x)
      by (apply Hinj; [right; exact Hy | left; reflexivity | exact Hfy]).
    subst y. exact (Hx Hy).
  - apply IH. intros a b Ha Hb. apply Hinj; right; assumption.
Qed.

(** The buckets of calendar month [m] are, up to their order, the bins
    of month [m] that hold rows. *)
Lemma buckets_positions (df : DataFrame) (m : Z) :
  Forall Spec.calendar_date (index df) ->
  Permutation
    (map Bins.position_of (filter (fun b => snd b =? m) (Spec.buckets df)))
    (filter (fun o => Spec.calendar_month o =? m) (Bins.positions df)).
Proof.
  intros Hcal. rewrite Forall_forall in Hcal.
  assert (Hbucket : forall b, In b (Spec.buckets df) <->
                              exists t, In t (index df)
                                        /\ b = Spec.bucket_of t).
  { intros b. unfold Spec.buckets. rewrite distinct_buckets_In, in_map_iff.
    split; intros [t [H1 H2]]; exists t; split; auto. }
  apply NoDup_Permutation.
  - apply NoDup_map_on; [| apply NoDup_filter, distinct_buckets_NoDup].
    intros b c Hb Hc Heq.
    apply filter_In in Hb. apply filter_In in Hc.
    destruct Hb as [Hb _]. destruct Hc as [Hc _].
    apply Hbucket in Hb. apply Hbucket in Hc.
    destruct Hb as [t [Ht ->]]. destruct Hc as [u [Hu ->]].
    specialize (Hcal t Ht) as Hvt. specialize (Hcal u Hu) as Hvu.
    unfold Spec.calendar_date in Hvt, Hvu.
    unfold Bins.position_of, Spec.bucket_of in *. cbn [fst snd] in Heq.
    f_equal; lia.
  - apply sorted_NoDup, sorted_filter. apply group_keys_sorted.
  - intros o. rewrite in_map_iff, filter_In. unfold Bins.positions.
    rewrite group_keys_In, Z.eqb_eq. split.
    + intros [b [Ho Hb]]. apply filter_In in Hb. destruct Hb as [Hb Hm].
      apply Z.eqb_eq in Hm. apply Hbucket in Hb. destruct Hb as [t [Ht ->]].
      rewrite position_of_bucket in Ho. subst o. split.
      * apply in_map. exact Ht.
      * rewrite calendar_month_ordinal by (apply Hcal; exact Ht). exact Hm.
    + intros [Ho Hm]. apply in_map_iff in Ho. destruct Ho as [t [Ho Ht]].
      exists (Spec.bucket_of t). split; [rewrite position_of_bucket; exact Ho |].
      apply filter_In. split; [apply Hbucket; exists t; auto |].
      apply Z.eqb_eq. subst o.
      rewrite calendar_month_ordinal in Hm by (apply Hcal; exact Ht).
      exact Hm.
Qed.

(** The rows of a bucket are the rows at its month position. *)
Lemma bucket_rows (df : DataFrame) (t : Timestamp) :
  Forall Spec.calendar_date (index df) ->
  Spec.calendar_date t ->
  filter (fun r => Agg.month_ordinal (Date r)
                   =? Bins.position_of (Spec.bucket_of t)) df
  = filter (fun r => Spec.same_bucket (Spec.bucket_of (Date r))
                                      (Spec.bucket_of t)) df.
Proof.
  intros Hcal Ht. apply filter_ext_in. intros r Hr.
  rewrite Forall_forall in Hcal.
  assert (Hrcal : Spec.calendar_date (Date r))
    by (apply Hcal; apply in_map; exact Hr).
  unfold Spec.calendar_date in Ht, Hrcal.
  apply eq_iff_eq_true. rewrite Z.eqb_eq, same_bucket_eq.
  unfold Bins.position_of, Spec.bucket_of, Agg.month_ordinal. cbn [fst snd].
  split.
  - intros H. f_equal; lia.
  - intros H. inversion H. lia.
Qed.

Lemma bucket_mean_at (df : DataFrame) (m : Z) :
  Forall Spec.calendar_date (index df) ->
  Forall2 Spec.same_value
    (map (Bins.mean_at df)
         (map Bins.position_of
              (filter (fun b => snd b =? m) (Spec.buckets df))))
    (Spec.monthly_means df m).
Proof.
  intros Hcal. unfold Spec.monthly_means. rewrite map_map.
  assert (Hall : Forall (fun b => exists t, In t (index df)
                                            /\ b = Spec.bucket_of t)
                        (filter (fun b => snd b =? m) (Spec.buckets df))).
  { apply Forall_forall. intros b Hb. apply filter_In in Hb.
    destruct Hb as [Hb _]. unfold Spec.buckets in Hb.
    apply distinct_buckets_In, in_map_iff in Hb.
    destruct Hb as [t [H1 H2]]. exists t. auto. }
  induction Hall as [|b bs [t [Ht ->]] _ IH]; cbn [map]; constructor;
    [| exact IH].
  unfold Bins.mean_at, Spec.bucket_mean.
  rewrite bucket_rows;
    [apply nanmean_mean | exact Hcal |].
  rewrite Forall_forall in Hcal. apply Hcal. exact Ht.
Qed.

(** The value the code gives a month is the mean, over the buckets of
    that calendar month, of the bucket means. *)
Lemma profile_is_mean_of_means (df : DataFrame) (m : Z) (v : option Q) :
  Forall Spec.calendar_date (index df) ->
  In (m, v) (GetMonthlyStatistics df) ->
  Spec.same_value v (Spec.monthly_profile df m).
Proof.
  intros Hcal Hin.
  rewrite (GetMonthlyStatistics_profile_value df m v Hcal Hin).
  unfold Bins.monthly_profile, Bins.monthly_means, Spec.monthly_profile.
  eapply same_value_trans; [apply nanmean_mean |].
  eapply same_value_trans.
  - apply mean_perm. apply Permutation_map. apply Permutation_sym.
    apply buckets_positions. exact Hcal.
  - apply mean_Forall2. apply bucket_mean_at. exact Hcal.
Qed.

(** C2. For a table of calendar dates, [GetMonthlyStatistics] returns a
    frame whose index has no duplicates and lies within 1..12; the value
    at month [m] is, as a number, the mean (total over count, absent
    values ignored) of the means of the month-start buckets of calendar
    month [m], each bucket mean being the mean of the discharges of the
    days of that month of that year, absent values ignored; every month
    in which a row falls has an entry; and when the January bucket means
    are 10 and 30 the January entry is 20. *)
Theorem GetMonthlyStatistics_monthly_profile (DataDF : DataFrame)
    (Hcal : Forall Spec.calendar_date (index DataDF)) :
  let MonthlyAverages := GetMonthlyStatistics DataDF in
  NoDup (map fst MonthlyAverages)
  /\ Forall (fun m => 1 <= m <= 12) (map fst MonthlyAverages)
  /\ (forall m v,
        In (m, v) MonthlyAverages ->
        Spec.same_value v (Spec.monthly_profile DataDF m))
  /\ (forall r,
        In r DataDF -> exists v, In (month (Date r), v) MonthlyAverages)
  /\ (forall a b,
        Spec.monthly_means DataDF 1 = [Some a; Some b] ->
        (a == 10)%Q -> (b == 30)%Q ->
        exists q, In (1, Some q) MonthlyAverages /\ (q == 20)%Q).
Proof.
  cbv zeta.
  assert (Hval : forall m v,
             In (m, v) (GetMonthlyStatistics DataDF) ->
             Spec.same_value v (Spec.monthly_profile DataDF m)).
  { intros m v. apply profile_is_mean_of_means. exact Hcal. }
  split; [| split; [| split; [exact Hval | split]]].
  - rewrite GetMonthlyStatistics_index.
    apply sorted_NoDup, group_keys_sorted.
  - apply Forall_forall. intros m Hm.
    apply GetMonthlyStatistics_index_In in Hm.
    destruct Hm as [_ [_ [o [_ [_ [_ <-]]]]]]. apply calendar_month_bounds.
  - intros r Hr. apply In_index_entry.
    apply GetMonthlyStatistics_row_month; assumption.
  - intros a b Hjan Ha Hb.
    assert (Hin : In 1 (map fst (GetMonthlyStatistics DataDF))).
    { assert (Hb1 : exists r, In r DataDF /\ month (Date r) = 1).
      { unfold Spec.monthly_means in Hjan.
        destruct (filter (fun c => snd c =? 1) (Spec.buckets DataDF))
          as [|c rest] eqn:Hf; [discriminate |].
        assert (Hc : In c (filter (fun c => snd c =? 1)
                                  (Spec.buckets DataDF)))
          by (rewrite Hf; left; reflexivity).
        apply filter_In in Hc. destruct Hc as [Hc Hm].
        apply Z.eqb_eq in Hm. unfold Spec.buckets in Hc.
        apply (proj1 (distinct_buckets_In _ _)) in Hc. unfold index in Hc.
        rewrite map_map in Hc. apply in_map_iff in Hc.
        destruct Hc as [r [Hr Hin]]. exists r. split; [exact Hin |].
        subst c. exact Hm. }
      destruct Hb1 as [r [Hr Hm]]. rewrite <- Hm.
      apply GetMonthlyStatistics_row_month; assumption. }
    apply In_index_entry in Hin. destruct Hin as [v Hv].
    pose proof (Hval 1 v Hv) as Hv1.
    unfold Spec.monthly_profile in Hv1. rewrite Hjan in Hv1.
    destruct v as [q |]; [| destruct Hv1].
    exists q. split; [exact Hv |].
    cbn in Hv1. rewrite Hv1, Ha, Hb. reflexivity.
Qed.

Lemma GetMonthlyStatistics_monthly_profile_witness :
  Forall Spec.calendar_date (index SampleYears.januaries)
  /\ exists q,
       In (1, Some q) (GetMonthlyStatistics SampleYears.januaries)
       /\ (q == 20)%Q.
Proof.
  assert (Hcal : Forall Spec.calendar_date (index SampleYears.januaries)).
  { unfold SampleYears.januaries, Sample.row, Spec.calendar_date.
    repeat constructor; simpl; lia. }
  split; [exact Hcal |].
  apply (proj2 (proj2 (proj2 (proj2
           (GetMonthlyStatistics_monthly_profile SampleYears.januaries Hcal))))
           (30 # 3) (90 # 3)); reflexivity.
Defined.

(** ** Months without a contributing day *)

Lemma nanmean_all_absent (col : list (option Q)) :
  Forall (fun x => x = None) col -> Agg.nanmean col = None.
Proof.
  intros Hall. unfold Agg.nanmean.
  replace (Agg.dropna col) with (@nil Q); [reflexivity |].
  induction Hall as [|x col Hx _ IH]; [reflexivity |].
  subst x. cbn [Agg.dropna flat_map app]. exact IH.
Qed.

(** C7, at the input that refutes it: the record has no day in February,
    yet the profile has a row for month 2, holding an absent value. *)
Lemma GetMonthlyStatistics_gap_month_has_row :
  (forall r, In r SampleYears.gap -> month (Date r) <> 2)
  /\ In (2, None) (GetMonthlyStatistics SampleYears.gap)
  /\ In 2 (map fst (GetMonthlyStatistics SampleYears.gap)).
Proof.
  split; [| split].
  - unfold SampleYears.gap, Sample.row. cbn [In].
    intros r [<- | [<- | []]]; cbn [Date month]; lia.
  - vm_compute. right; left; reflexivity.
  - vm_compute. right; left; reflexivity.
Qed.

(** C7, amended. A month number has a row in the profile exactly when a
    month of that number lies between the months of two rows of the
    record, so a month outside the span of the record has no row and the
    1..12 index may be incomplete; a month that has a row although no day
    contributes a value to it holds an absent value, not a zero. *)
Theorem GetMonthlyStatistics_missing_month (DataDF : DataFrame) (m : Z) :
  (In m (map fst (GetMonthlyStatistics DataDF))
   <-> exists r1 r2 o,
         In r1 DataDF /\ In r2 DataDF
         /\ Agg.month_ordinal (Date r1) <= o <= Agg.month_ordinal (Date r2)
         /\ Spec.calendar_month o = m)
  /\ (forall v,
        In (m, v) (GetMonthlyStatistics DataDF) ->
        (forall r, In r DataDF -> month (Date r) = m -> Discharge r = None) ->
        v = None).
Proof.
  split; [apply GetMonthlyStatistics_index_In |].
  intros v Hin Hzero. apply GetMonthlyStatistics_value in Hin. subst v.
  rewrite month_keyed_values. apply nanmean_all_absent.
  apply Forall_forall. intros x Hx. apply in_map_iff in Hx.
  destruct Hx as [lbl [<- Hlbl]]. apply filter_In in Hlbl.
  destruct Hlbl as [_ Hm]. apply Z.eqb_eq in Hm.
  apply nanmean_all_absent. unfold Discharge_column.
  apply Forall_forall. intros d Hd. apply in_map_iff in Hd.
  destruct Hd as [r [<- Hr]]. apply filter_In in Hr.
  destruct Hr as [Hr Hbin]. unfold Agg.in_bin in Hbin.
  apply andb_true_iff in Hbin. destruct Hbin as [_ Hmonth].
  apply Z.eqb_eq in Hmonth. apply Hzero; [exact Hr | lia].
Qed.

(** A record that starts in June and ends in September has rows for the
    months 6..9 only; July has days but no value, August has no day. *)
Lemma GetMonthlyStatistics_mid_year :
  GetMonthlyStatistics SampleYears.mid_year
  = [ (6, Some (10 # 1)); (7, None); (8, None); (9, Some (30 # 1)) ].
Proof. reflexivity. Qed.

(** ** Figure 6: exceedance *)

(** C10, at an input with tied peaks: the two peaks of 5 are paired with
    the exceedances 1/4 and 5/8, and the peak of 3 with 5/8, the value
    computed from the rank of the tied pair. *)
Theorem exceedance_tied_peaks :
  exists e1 e2 e3,
    exceedance [5; 5; 3]%Q = [ (e1, 5%Q); (e2, 5%Q); (e3, 3%Q) ]
    /\ (e1 == 1 # 4)%Q /\ (e2 == 5 # 8)%Q /\ (e3 == 5 # 8)%Q
    /\ ~ (e1 == e2)%Q.
Proof.
  eexists. eexists. eexists. split; [reflexivity |].
  split; [reflexivity |]. split; [reflexivity |]. split; [reflexivity |].
  intros H. discriminate H.
Qed.

(** *** Sorting the peaks *)

Lemma insert_desc_In (x y : Q) (l : list Q) :
  In y (Exc.insert_desc x l) <-> y = x \/ In y l.
Proof.
  induction l as [|z l IH]; cbn [Exc.insert_desc In].
  - intuition.
  - destruct (Qle_bool z x); cbn [In]; [intuition |].
    rewrite IH. intuition.
Qed.

Lemma insert_desc_length (x : Q) (l : list Q) :
  List.length (Exc.insert_desc x l) = S (List.length l).
Proof.
  induction l as [|z l IH]; cbn [Exc.insert_desc]; [reflexivity |].
  destruct (Qle_bool z x); cbn [List.length]; [reflexivity |].
  rewrite IH. reflexivity.
Qed.

Lemma sort_values_desc_In (y : Q) (l : list Q) :
  In y (Exc.sort_values_desc l) <-> In y l.
Proof.
  unfold Exc.sort_values_desc.
  induction l as [|x l IH]; cbn [fold_right In]; [tauto |].
  rewrite insert_desc_In, IH. intuition.
Qed.

Lemma sort_values_desc_length (l : list Q) :
  List.length (Exc.sort_values_desc l) = List.length l.
Proof.
  unfold Exc.sort_values_desc.
  induction l as [|x l IH]; cbn [fold_right List.length]; [reflexivity |].
  rewrite insert_desc_length, IH. reflexivity.
Qed.

(** Counting with a test does not depend on the order of the values. *)
Lemma insert_desc_count (f : Q -> bool) (x : Q) (l : list Q) :
  List.length (filter f (Exc.insert_desc x l))
  = List.length (filter f (x :: l)).
Proof.
  induction l as [|z l IH]; cbn [Exc.insert_desc]; [reflexivity |].
  destruct (Qle_bool z x); [reflexivity |].
  cbn [filter] in *.
  destruct (f z), (f x); cbn [List.length] in *; rewrite IH; reflexivity.
Qed.

Lemma sort_values_desc_count (f : Q -> bool) (l : list Q) :
  List.length (filter f (Exc.sort_values_desc l)) = List.length (filter f l).
Proof.
  unfold Exc.sort_values_desc.
  induction l as [|x l IH]; cbn [fold_right]; [reflexivity |].
  rewrite insert_desc_count. cbn [filter].
  destruct (f x); cbn [List.length]; rewrite IH; reflexivity.
Qed.

Lemma insert_desc_sorted (x : Q) (l : list Q) :
  StronglySorted (fun a b => (b <= a)%Q) l ->
  StronglySorted (fun a b => (b <= a)%Q) (Exc.insert_desc x l).
Proof.
  induction 1 as [|z l Hs IH Hall]; cbn [Exc.insert_desc].
  - repeat constructor.
  - destruct (Qle_bool z x) eqn:Hzx.
    + apply Qle_bool_iff in Hzx.
      constructor; [constructor; assumption |].
      constructor; [exact Hzx |].
      eapply Forall_impl; [| exact Hall]. intros y Hy. cbv beta in Hy.
      eapply Qle_trans; eassumption.
    + assert (Hxz : (x <= z)%Q).
      { apply Qlt_le_weak, Qnot_le_lt. intros Hle.
        apply Qle_bool_iff in Hle. congruence. }
      constructor; [exact IH |].
      apply Forall_forall. intros y Hy. apply insert_desc_In in Hy.
      destruct Hy as [-> | Hy]; [exact Hxz |].
      rewrite Forall_forall in Hall. apply Hall. exact Hy.
Qed.

Lemma sort_values_desc_sorted (l : list Q) :
  StronglySorted (fun a b => (b <= a)%Q) (Exc.sort_values_desc l).
Proof.
  unfold Exc.sort_values_desc.
  induction l as [|x l IH]; cbn [fold_right]; [constructor |].
  apply insert_desc_sorted. exact IH.
Qed.

Lemma insert_desc_distinct (x : Q) (l : list Q) :
  Forall (fun y => ~ (x == y)%Q) l ->
  Exc.distinct l -> Exc.distinct (Exc.insert_desc x l).
Proof.
  unfold Exc.distinct. intros Hx Hd.
  induction Hd as [|z l Hz Hd IH]; cbn [Exc.insert_desc].
  - repeat constructor.
  - destruct (Qle_bool z x).
    + constructor; [exact Hx | constructor; assumption].
    + inversion Hx as [|? ? Hxz Hx']; subst.
      constructor; [| apply IH; exact Hx'].
      apply Forall_forall. intros y Hy. apply insert_desc_In in Hy.
      destruct Hy as [-> | Hy].
      * intros Heq. apply Hxz. symmetry. exact Heq.
      * rewrite Forall_forall in Hz. apply Hz. exact Hy.
Qed.

Lemma sort_values_desc_distinct (l : list Q) :
  Exc.distinct l -> Exc.distinct (Exc.sort_values_desc l).
Proof.
  unfold Exc.distinct at 1, Exc.sort_values_desc.
  induction 1 as [|x l Hx Hd IH]; cbn [fold_right]; [constructor |].
  apply insert_desc_distinct; [| exact IH].
  apply Forall_forall. intros y Hy.
  apply (proj1 (sort_values_desc_In y l)) in Hy.
  rewrite Forall_forall in Hx. apply Hx. exact Hy.
Qed.

(** *** Counting around a position of the sorted peaks *)

Lemma filter_none {A : Type} (f : A -> bool) (l : list A) :
  Forall (fun y => f y = false) l -> filter f l = [].
Proof.
  induction 1 as [|y l Hy _ IH]; [reflexivity |].
  cbn [filter]. rewrite Hy. exact IH.
Qed.

Lemma filter_all {A : Type} (f : A -> bool) (l : list A) :
  Forall (fun y => f y = true) l -> filter f l = l.
Proof.
  induction 1 as [|y l Hy _ IH]; [reflexivity |].
  cbn [filter]. rewrite Hy, IH. reflexivity.
Qed.

Lemma sorted_desc_split (l1 l2 : list Q) (x : Q) :
  StronglySorted (fun a b => (b <= a)%Q) (l1 ++ x :: l2) ->
  Forall (fun y => (x <= y)%Q) l1 /\ Forall (fun z => (z <= x)%Q) l2.
Proof.
  induction l1 as [|a l1 IH]; cbn [app]; intros Hs.
  - inversion Hs; subst. split; [constructor | assumption].
  - inversion Hs as [|? ? Hs' Hall]; subst.
    destruct (IH Hs') as [H1 H2]. split; [| exact H2].
    constructor; [| exact H1].
    rewrite Forall_forall in Hall. apply Hall.
    apply in_or_app. right; left; reflexivity.
Qed.

Lemma distinct_split (l1 l2 : list Q) (x : Q) :
  Exc.distinct (l1 ++ x :: l2) ->
  Forall (fun y => ~ (y == x)%Q) l1 /\ Forall (fun z => ~ (x == z)%Q) l2.
Proof.
  unfold Exc.distinct.
  induction l1 as [|a l1 IH]; cbn [app]; intros Hd.
  - inversion Hd; subst. split; [constructor | assumption].
  - inversion Hd as [|? ? Hall Hd']; subst.
    destruct (IH Hd') as [H1 H2]. split; [| exact H2].
    constructor; [| exact H1].
    rewrite Forall_forall in Hall. apply Hall.
    apply in_or_app. right; left; reflexivity.
Qed.

(** Around a value of a strictly descending series: the values before it
    are above it, the values after it are below it. *)
Lemma counts_at_position (l1 l2 : list Q) (x : Q) :
  StronglySorted (fun a b => (b <= a)%Q) (l1 ++ x :: l2) ->
  Exc.distinct (l1 ++ x :: l2) ->
  Exc.count_lt x (l1 ++ x :: l2) = List.length l2
  /\ Exc.count_eq x (l1 ++ x :: l2) = 1%nat
  /\ Exc.count_gt x (l1 ++ x :: l2) = List.length l1.
Proof.
  intros Hs Hd.
  destruct (sorted_desc_split _ _ _ Hs) as [Hge Hle].
  destruct (distinct_split _ _ _ Hd) as [Hne1 Hne2].
  rewrite Forall_forall in Hge, Hle, Hne1, Hne2.
  assert (Habove : Forall (fun y => (x < y)%Q) l1).
  { apply Forall_forall. intros y Hy. pose proof (Hge y Hy) as Hxy.
    apply Qle_lt_or_eq in Hxy. destruct Hxy as [Hlt | Heq]; [exact Hlt |].
    exfalso. apply (Hne1 y Hy). symmetry. exact Heq. }
  assert (Hbelow : Forall (fun z => (z < x)%Q) l2).
  { apply Forall_forall. intros z Hz. pose proof (Hle z Hz) as Hzx.
    apply Qle_lt_or_eq in Hzx. destruct Hzx as [Hlt | Heq]; [exact Hlt |].
    exfalso. apply (Hne2 z Hz). symmetry. exact Heq. }
  rewrite Forall_forall in Habove, Hbelow.
  unfold Exc.count_lt, Exc.count_eq, Exc.count_gt.
  rewrite !filter_app. cbn [filter].
  assert (Hxx_lt : Pd.Qlt_bool x x = false)
    by (apply Qlt_bool_ge, Qle_refl).
  assert (Hxx_eq : Qeq_bool x x = true) by apply Qeq_bool_refl.
  rewrite Hxx_lt, Hxx_eq.
  split; [| split].
  - rewrite (filter_none (fun y => Pd.Qlt_bool y x) l1),
            (filter_all (fun y => Pd.Qlt_bool y x) l2); [reflexivity | |].
    + apply Forall_forall. intros z Hz. apply Qlt_bool_lt, Hbelow, Hz.
    + apply Forall_forall. intros y Hy.
      apply Qlt_bool_ge, Qlt_le_weak, Habove, Hy.
  - rewrite (filter_none (fun y => Qeq_bool y x) l1),
            (filter_none (fun y => Qeq_bool y x) l2); [reflexivity | |].
    + apply Forall_forall. intros z Hz.
      destruct (Qeq_bool z x) eqn:Heq; [| reflexivity].
      apply Qeq_bool_iff in Heq. exfalso. apply (Hne2 z Hz).
      symmetry. exact Heq.
    + apply Forall_forall. intros y Hy.
      destruct (Qeq_bool y x) eqn:Heq; [| reflexivity].
      apply Qeq_bool_iff in Heq. exfalso. exact (Hne1 y Hy Heq).
  - rewrite (filter_all (fun y => Pd.Qlt_bool x y) l1),
            (filter_none (fun y => Pd.Qlt_bool x y) l2);
      [rewrite length_app; cbn [List.length]; lia | |].
    + apply Forall_forall. intros z Hz.
      apply Qlt_bool_ge, Qlt_le_weak, Hbelow, Hz.
    + apply Forall_forall. intros y Hy. apply Qlt_bool_lt, Habove, Hy.
Qed.

Lemma split_at_position {A : Type} (l : list A) (k : nat) (d : A) :
  (k < List.length l)%nat ->
  l = firstn k l ++ nth k l d :: skipn (S k) l.
Proof.
  revert k. induction l as [|a l IH]; intros k Hk; cbn [List.length] in Hk.
  - lia.
  - destruct k as [|k]; [reflexivity |].
    cbn [firstn nth skipn app]. f_equal. apply IH. lia.
Qed.

Lemma Qnat_S (m : nat) : (Exc.Qnat (S m) == Exc.Qnat m + 1)%Q.
Proof.
  unfold Exc.Qnat. rewrite Nat2Z.inj_succ. unfold Z.succ.
  rewrite inject_Z_plus. reflexivity.
Qed.

Lemma Qnat_nonneg (m : nat) : (0 <= Exc.Qnat m)%Q.
Proof.
  unfold Exc.Qnat. change 0%Q with (inject_Z 0).
  rewrite <- Zle_Qle. lia.
Qed.

Lemma Qnat_le (a b : nat) : (a <= b)%nat -> (Exc.Qnat a <= Exc.Qnat b)%Q.
Proof. intros H. unfold Exc.Qnat. rewrite <- Zle_Qle. lia. Qed.

Lemma Qnat_plus (a b : nat) :
  (Exc.Qnat (a + b) == Exc.Qnat a + Exc.Qnat b)%Q.
Proof.
  unfold Exc.Qnat. rewrite Nat2Z.inj_add, inject_Z_plus. reflexivity.
Qed.

(** In a strictly descending series of [n] values the value at position
    [k] (from 0) has rank [n - k]. *)
Lemma rank_at_position (l : list Q) (k : nat) :
  StronglySorted (fun a b => (b <= a)%Q) l ->
  Exc.distinct l ->
  (k < List.length l)%nat ->
  (Exc.rank_average l (nth k l 0) == Exc.Qnat (List.length l - k))%Q
  /\ Exc.count_gt (nth k l 0%Q) l = k.
Proof.
  intros Hs Hd Hk.
  pose proof (split_at_position l k 0%Q Hk) as Hl.
  set (x := nth k l 0%Q) in *.
  set (l1 := firstn k l) in *. set (l2 := skipn (S k) l) in *.
  assert (Hlen1 : List.length l1 = k)
    by (subst l1; rewrite length_firstn; lia).
  assert (Hlen2 : List.length l2 = (List.length l - S k)%nat)
    by (subst l2; apply length_skipn).
  clearbody x l1 l2. subst l.
  destruct (counts_at_position l1 l2 x Hs Hd) as [Hlt [Heq Hgt]].
  split; [| rewrite Hgt; exact Hlen1].
  unfold Exc.rank_average. rewrite Hlt, Heq.
  replace (List.length (l1 ++ x :: l2) - k)%nat with (S (List.length l2))
    by (rewrite length_app in *; cbn [List.length] in *; lia).
  rewrite (Qnat_S (List.length l2)).
  setoid_replace ((Exc.Qnat 1 + 1) / 2)%Q with 1%Q
    by (unfold Qeq; reflexivity).
  reflexivity.
Qed.

Lemma nth_error_map_seq {A : Type} (f : nat -> A) (n k : nat) :
  (k < n)%nat -> nth_error (map f (seq 0 n)) k = Some (f k).
Proof.
  intros Hk. apply map_nth_error.
  rewrite nth_error_nth' with (d := 0%nat) by (rewrite length_seq; exact Hk).
  rewrite seq_nth by exact Hk. reflexivity.
Qed.

Lemma nth_error_combine {A B : Type} (l1 : list A) (l2 : list B)
    (k : nat) (a : A) (b : B) :
  nth_error l1 k = Some a -> nth_error l2 k = Some b ->
  nth_error (combine l1 l2) k = Some (a, b).
Proof.
  revert l2 k. induction l1 as [|x l1 IH]; intros l2 k H1 H2.
  - destruct k; discriminate.
  - destruct l2 as [|y l2]; [destruct k; discriminate |].
    destruct k as [|k]; cbn [nth_error combine] in *.
    + inversion H1; inversion H2; subst. reflexivity.
    + apply IH; assumption.
Qed.

Lemma nth_map_rank (a l : list Q) (j : nat) :
  (j < List.length l)%nat ->
  nth j (map (Exc.rank_average a) l) 0%Q = Exc.rank_average a (nth j l 0%Q).
Proof.
  intros Hj.
  rewrite nth_indep with (d' := Exc.rank_average a 0%Q)
    by (rewrite length_map; exact Hj).
  apply map_nth.
Qed.

(** The point plotted at position [k] of the scatter. *)
Lemma exceedance_nth (peak_flow : list Q) (k : nat) :
  (k < List.length peak_flow)%nat ->
  let peak := Exc.sort_values_desc peak_flow in
  let n := List.length peak_flow in
  nth_error (exceedance peak_flow) k
  = Some ((Exc.rank_average peak (nth (n - S k) peak 0) / Exc.Qnat (n + 1))%Q,
          nth k peak 0%Q).
Proof.
  intros Hk peak n. unfold exceedance. fold peak.
  assert (Hn : List.length peak = n) by apply sort_values_desc_length.
  rewrite Hn. apply nth_error_combine.
  - rewrite nth_error_map_seq by exact Hk. f_equal. f_equal.
    unfold Exc.rankdata_average.
    rewrite rev_nth by (rewrite length_map, Hn; exact Hk).
    rewrite length_map, Hn. apply nth_map_rank. rewrite Hn. lia.
  - apply nth_error_nth'. rewrite Hn. exact Hk.
Qed.

(** For peaks with distinct values, the peak that has exactly [k] larger
    peaks (the (k+1)-th largest) is plotted at position [k] with the
    exceedance (k+1)/(n+1). *)
Theorem exceedance_distinct_peaks (peak_flow : list Q) (k : nat)
    (Hd : Exc.distinct peak_flow)
    (Hk : (k < List.length peak_flow)%nat) :
  exists e p,
    nth_error (exceedance peak_flow) k = Some (e, p)
    /\ In p peak_flow
    /\ Exc.count_gt p peak_flow = k
    /\ (e == Exc.Qnat (k + 1) / Exc.Qnat (List.length peak_flow + 1))%Q.
Proof.
  pose proof (exceedance_nth peak_flow k Hk) as Hnth. cbv zeta in Hnth.
  set (peak := Exc.sort_values_desc peak_flow) in *.
  set (n := List.length peak_flow) in *.
  assert (Hn : List.length peak = n) by apply sort_values_desc_length.
  assert (Hs : StronglySorted (fun a b => (b <= a)%Q) peak)
    by apply sort_values_desc_sorted.
  assert (Hdp : Exc.distinct peak)
    by (apply sort_values_desc_distinct; exact Hd).
  eexists. eexists. split; [exact Hnth |]. split; [| split].
  - apply sort_values_desc_In. fold peak. apply nth_In. rewrite Hn. exact Hk.
  - unfold Exc.count_gt. rewrite <- sort_values_desc_count. fold peak.
    apply rank_at_position; [exact Hs | exact Hdp | rewrite Hn; exact Hk].
  - destruct (rank_at_position peak (n - S k) Hs Hdp) as [Hrank _];
      [rewrite Hn; lia |].
    rewrite Hrank, Hn.
    replace (n - (n - S k))%nat with (k + 1)%nat by lia. reflexivity.
Qed.

Lemma exceedance_distinct_peaks_witness :
  exists e p,
    nth_error (exceedance SamplePeaks.peaks) 1 = Some (e, p)
    /\ In p SamplePeaks.peaks
    /\ Exc.count_gt p SamplePeaks.peaks = 1%nat
    /\ (e == 2 # 5)%Q.
Proof.
  destruct (exceedance_distinct_peaks SamplePeaks.peaks 1) as
    [e [p [Hnth [Hin [Hgt He]]]]].
  - unfold Exc.distinct, SamplePeaks.peaks.
    repeat (constructor; [repeat constructor; intros H; discriminate H |]).
    constructor.
  - unfold SamplePeaks.peaks. cbn [List.length]. lia.
  - exists e, p. split; [exact Hnth |]. split; [exact Hin |].
    split; [exact Hgt |]. rewrite He. unfold Qeq. reflexivity.
Defined.

(** *** Bounds of the ranks *)

Lemma filter_length_pos {A : Type} (f : A -> bool) (l : list A) (x : A) :
  In x l -> f x = true -> (1 <= List.length (filter f l))%nat.
Proof.
  induction l as [|y l IH]; intros Hin Hf; [destruct Hin |].
  cbn [filter]. destruct Hin as [-> | Hin].
  - rewrite Hf. cbn [List.length]. lia.
  - destruct (f y); cbn [List.length]; [lia | apply IH; assumption].
Qed.

Lemma filter_disjoint_length {A : Type} (f g : A -> bool) (l : list A) :
  (forall y, f y = true -> g y = false) ->
  (List.length (filter f l) + List.length (filter g l) <= List.length l)%nat.
Proof.
  intros Hfg. induction l as [|y l IH]; [reflexivity |].
  cbn [filter]. destruct (f y) eqn:Hf.
  - rewrite (Hfg y Hf). cbn [List.length]. lia.
  - destruct (g y); cbn [List.length]; lia.
Qed.

Lemma half_up (L E N : Q) :
  (0 <= L)%Q -> (1 <= E)%Q -> (L + E <= N)%Q ->
  (1 <= L + (E + 1) / 2 <= N)%Q.
Proof.
  intros HL HE HN. unfold Qdiv. change (/ 2)%Q with (1 # 2)%Q. split; lra.
Qed.

Lemma rank_average_bounds (a : list Q) (x : Q) :
  In x a ->
  (1 <= Exc.rank_average a x <= Exc.Qnat (List.length a))%Q.
Proof.
  intros Hin. unfold Exc.rank_average. apply half_up.
  - apply Qnat_nonneg.
  - change 1%Q with (Exc.Qnat 1). apply Qnat_le.
    unfold Exc.count_eq. apply filter_length_pos with (x := x);
      [exact Hin | apply Qeq_bool_refl].
  - rewrite <- Qnat_plus. apply Qnat_le.
    unfold Exc.count_lt, Exc.count_eq. apply filter_disjoint_length.
    intros y Hlt. apply Qlt_bool_lt in Hlt.
    destruct (Qeq_bool y x) eqn:Heq; [| reflexivity].
    apply Qeq_bool_iff in Heq. rewrite Heq in Hlt.
    exfalso. exact (Qlt_irrefl _ Hlt).
Qed.

(** Every exceedance of the plot lies strictly between 0 and 1, ties or
    not. *)
Theorem exceedance_within_unit (peak_flow : list Q) :
  Forall (fun ep : Q * Q => (0 < fst ep < 1)%Q) (exceedance peak_flow).
Proof.
  apply Forall_forall. intros [e p] Hin. cbn [fst].
  unfold exceedance in Hin. apply in_combine_l in Hin.
  set (peak := Exc.sort_values_desc peak_flow) in *.
  apply in_map_iff in Hin. destruct Hin as [i [<- Hi]].
  apply in_seq in Hi.
  assert (Hr : In (nth i (rev (Exc.rankdata_average peak)) 0%Q)
                  (Exc.rankdata_average peak)).
  { apply in_rev. apply nth_In.
    rewrite length_rev. unfold Exc.rankdata_average. rewrite length_map. lia. }
  unfold Exc.rankdata_average at 2 in Hr.
  apply in_map_iff in Hr. destruct Hr as [x [Hx Hxin]].
  rewrite <- Hx.
  destruct (rank_average_bounds peak x Hxin) as [Hlo Hhi].
  assert (Hd : (Exc.Qnat (List.length peak + 1)
                == Exc.Qnat (List.length peak) + 1)%Q)
    by (rewrite Qnat_plus; reflexivity).
  pose proof (Qnat_nonneg (List.length peak)) as Hn.
  split.
  - apply Qlt_shift_div_l; lra.
  - apply Qlt_shift_div_r; lra.
Qed.

(** *** Ranks grow with the value *)

Lemma count_step (x y : Q) (a : list Q) :
  (x < y)%Q ->
  (Exc.count_lt x a + Exc.count_eq x a <= Exc.count_lt y a)%nat.
Proof.
  intros Hxy. unfold Exc.count_lt, Exc.count_eq.
  induction a as [|z a IH]; [reflexivity |].
  cbn [filter].
  destruct (Pd.Qlt_bool z x) eqn:Hzx; destruct (Qeq_bool z x) eqn:Heq;
    destruct (Pd.Qlt_bool z y) eqn:Hzy; cbn [List.length]; try lia.
  - apply Qlt_bool_lt in Hzx. apply Qeq_bool_iff in Heq.
    rewrite Heq in Hzx. exfalso. exact (Qlt_irrefl _ Hzx).
  - apply Qlt_bool_lt in Hzx. apply Qeq_bool_iff in Heq.
    rewrite Heq in Hzx. exfalso. exact (Qlt_irrefl _ Hzx).
  - apply Qlt_bool_lt in Hzx. apply Qlt_bool_ge in Hzy.
    exfalso. apply (Qlt_irrefl z). 
    eapply Qlt_le_trans; [eapply Qlt_trans; eassumption | exact Hzy].
  - apply Qeq_bool_iff in Heq. apply Qlt_bool_ge in Hzy.
    exfalso. apply (Qlt_irrefl y). rewrite <- Heq in Hxy.
    eapply Qle_lt_trans; eassumption.
Qed.

Lemma rank_average_proper (a : list Q) (x y : Q) :
  (x == y)%Q -> Exc.rank_average a x = Exc.rank_average a y.
Proof.
  intros Hxy. unfold Exc.rank_average, Exc.count_lt, Exc.count_eq.
  assert (Hlt : filter (fun z => Pd.Qlt_bool z x) a
                = filter (fun z => Pd.Qlt_bool z y) a).
  { apply filter_ext. intros z. unfold Pd.Qlt_bool. rewrite Hxy. reflexivity. }
  assert (Heq : filter (fun z => Qeq_bool z x) a
                = filter (fun z => Qeq_bool z y) a).
  { apply filter_ext. intros z. apply eq_iff_eq_true.
    rewrite !Qeq_bool_iff, Hxy. tauto. }
  rewrite Hlt, Heq. reflexivity.
Qed.

Lemma half_step (Lx Ex Ly Ey : Q) :
  (0 <= Ex)%Q -> (0 <= Ey)%Q -> (Lx + Ex <= Ly)%Q ->
  (Lx + (Ex + 1) / 2 <= Ly + (Ey + 1) / 2)%Q.
Proof.
  intros HEx HEy Hstep. unfold Qdiv. change (/ 2)%Q with (1 # 2)%Q. lra.
Qed.

Lemma rank_average_mono (a : list Q) (x y : Q) :
  (x <= y)%Q -> (Exc.rank_average a x <= Exc.rank_average a y)%Q.
Proof.
  intros Hxy. apply Qle_lt_or_eq in Hxy. destruct Hxy as [Hlt | Heq].
  - unfold Exc.rank_average. apply half_step; try apply Qnat_nonneg.
    rewrite <- Qnat_plus. apply Qnat_le. apply count_step. exact Hlt.
  - rewrite (rank_average_proper a x y Heq). apply Qle_refl.
Qed.

Lemma sorted_desc_nth (l : list Q) (i j : nat) :
  StronglySorted (fun a b => (b <= a)%Q) l ->
  (i <= j)%nat -> (j < List.length l)%nat ->
  (nth j l 0 <= nth i l 0)%Q.
Proof.
  intros Hs. revert i j.
  induction Hs as [|x l Hs IH Hall]; intros i j Hij Hj;
    cbn [List.length] in Hj; [lia |].
  destruct j as [|j].
  - replace i with 0%nat by lia. apply Qle_refl.
  - destruct i as [|i]; cbn [nth].
    + rewrite Forall_forall in Hall. apply Hall. apply nth_In. lia.
    + apply IH; lia.
Qed.

(** Along the plotting order the peaks descend and the exceedances
    ascend. *)
Lemma exceedance_order (peak_flow : list Q) (i j : nat) (e1 p1 e2 p2 : Q) :
  (i <= j)%nat ->
  nth_error (exceedance peak_flow) i = Some (e1, p1) ->
  nth_error (exceedance peak_flow) j = Some (e2, p2) ->
  (p2 <= p1)%Q /\ (e1 <= e2)%Q.
Proof.
  intros Hij H1 H2.
  assert (Hlen : List.length (exceedance peak_flow)
                 = List.length peak_flow).
  { unfold exceedance. rewrite length_combine, length_map, length_seq.
    rewrite sort_values_desc_length. apply Nat.min_id. }
  assert (Hj : (j < List.length peak_flow)%nat).
  { rewrite <- Hlen. apply nth_error_Some. congruence. }
  assert (Hi : (i < List.length peak_flow)%nat) by lia.
  rewrite (exceedance_nth peak_flow i Hi) in H1.
  rewrite (exceedance_nth peak_flow j Hj) in H2.
  cbv zeta in H1, H2. inversion H1; inversion H2; subst. clear H1 H2.
  pose proof (sort_values_desc_sorted peak_flow) as Hs.
  pose proof (sort_values_desc_length peak_flow) as Hn.
  split.
  - apply sorted_desc_nth; [exact Hs | exact Hij | rewrite Hn; exact Hj].
  - unfold Qdiv. apply Qmult_le_compat_r.
    + apply rank_average_mono.
      apply sorted_desc_nth; [exact Hs | lia | rewrite Hn; lia].
    + apply Qinv_le_0_compat. apply Qnat_nonneg.
Qed.

(** Exceedance is non-increasing in the peak flow: a peak that is larger
    than another never has the larger exceedance, ties or not. *)
Theorem exceedance_non_increasing (peak_flow : list Q) (e1 p1 e2 p2 : Q) :
  In (e1, p1) (exceedance peak_flow) ->
  In (e2, p2) (exceedance peak_flow) ->
  (p1 < p2)%Q -> (e2 <= e1)%Q.
Proof.
  intros H1 H2 Hlt.
  apply In_nth_error in H1. destruct H1 as [i Hi].
  apply In_nth_error in H2. destruct H2 as [j Hj].
  destruct (Nat.le_gt_cases j i) as [Hji | Hij].
  - apply (exceedance_order peak_flow j i e2 p2 e1 p1 Hji Hj Hi).
  - exfalso.
    destruct (exceedance_order peak_flow i j e1 p1 e2 p2) as [Hp _];
      [lia | exact Hi | exact Hj |].
    exact (Qlt_not_le _ _ Hlt Hp).
Qed.

Lemma exceedance_non_increasing_witness :
  ((2 # 10) <= (8 # 10))%Q.
Proof.
  apply (exceedance_non_increasing SamplePeaks.peaks
           (8 # 10) 95 (2 # 10) 1250).
  - vm_compute. right; right; right; left. reflexivity.
  - vm_compute. left. reflexivity.
  - reflexivity.
Defined.

(** *** The points of the plot *)

Lemma insert_desc_perm (x : Q) (l : list Q) :
  Permutation (Exc.insert_desc x l) (x :: l).
Proof.
  induction l as [|y l IH]; cbn [Exc.insert_desc]; [reflexivity |].
  destruct (Qle_bool y x); [reflexivity |].
  rewrite IH. apply perm_swap.
Qed.

Lemma sort_values_desc_perm (l : list Q) :
  Permutation (Exc.sort_values_desc l) l.
Proof.
  unfold Exc.sort_values_desc.
  induction l as [|x l IH]; cbn [fold_right]; [reflexivity |].
  rewrite insert_desc_perm. apply perm_skip. exact IH.
Qed.

Lemma map_snd_combine_same {A B : Type} (l1 : list A) (l2 : list B) :
  List.length l1 = List.length l2 -> map snd (combine l1 l2) = l2.
Proof.
  revert l2. induction l1 as [|a l1 IH]; intros [|b l2] Hlen;
    cbn [List.length] in Hlen; try discriminate; [reflexivity |].
  cbn [combine map snd]. f_equal. apply IH. lia.
Qed.

Lemma exceedance_peaks (peak_flow : list Q) :
  map snd (exceedance peak_flow) = Exc.sort_values_desc peak_flow.
Proof.
  unfold exceedance. apply map_snd_combine_same.
  rewrite length_map, length_seq. reflexivity.
Qed.

(** The scatter shows every annual peak exactly once: the plotted peaks
    are the given peaks rearranged, largest first, so there are as many
    points as peaks. *)
Theorem exceedance_plots_every_peak (peak_flow : list Q) :
  Permutation (map snd (exceedance peak_flow)) peak_flow
  /\ List.length (exceedance peak_flow) = List.length peak_flow
  /\ StronglySorted (fun a b => (b <= a)%Q) (map snd (exceedance peak_flow)).
Proof.
  rewrite exceedance_peaks. split; [apply sort_values_desc_perm |].
  split; [| apply sort_values_desc_sorted].
  rewrite <- (length_map snd), exceedance_peaks.
  apply sort_values_desc_length.
Qed.

(** ** ReadData: the table it returns *)

Lemma parse_float_column_inv (ts : list Token) (col : list (option Q)) :
  Csv.parse_float_column ["Eqp"%string] ts = Some col ->
  Forall numeric_or_missing ts.
Proof.
  revert col. induction ts as [|t ts IH]; intros col Hp; [constructor |].
  cbn [Csv.parse_float_column] in Hp.
  destruct (Csv.parse_field ["Eqp"%string] t) as [x |] eqn:Ht;
    [| discriminate].
  destruct (Csv.parse_float_column ["Eqp"%string] ts) as [xs |] eqn:Hts;
    [| discriminate].
  constructor; [| apply (IH xs); reflexivity].
  destruct t as [v | s]; [exact I |].
  cbn [Csv.parse_field] in Ht. cbn [numeric_or_missing]. apply is_na_Eqp.
  destruct (Csv.is_na ["Eqp"%string] s); [reflexivity | discriminate].
Qed.

Lemma ReadData_Returned_inv (file : RawFile) (DataDF : DataFrame)
    (MissingValues : nat) :
  ReadData file = Returned (DataDF, MissingValues) ->
  Forall numeric_or_missing (map raw_Discharge file)
  /\ DataDF = map screened_row file
  /\ MissingValues = List.length (filter absent (map screened_row file)).
Proof.
  intros Hret.
  assert (Hwf : Forall numeric_or_missing (map raw_Discharge file)).
  { unfold ReadData, Csv.read_csv in Hret.
    destruct (Csv.parse_float_column ["Eqp"%string] (map raw_Discharge file))
      as [col |] eqn:Hp; [| discriminate].
    apply (parse_float_column_inv _ col). exact Hp. }
  rewrite (ReadData_returns file Hwf) in Hret.
  inversion Hret; subst. auto.
Qed.

Lemma screened_row_plausible (raw : RawRow) : plausible (screened_row raw).
Proof.
  unfold plausible, screened_row. cbn [Discharge].
  destruct (raw_Discharge raw) as [v | s]; cbn [screened_value]; [| exact I].
  destruct (Pd.Qlt_bool v 0) eqn:Hv; [exact I |].
  apply Qlt_bool_ge. exact Hv.
Qed.

Lemma screened_rows_plausible (file : RawFile) :
  Forall plausible (map screened_row file).
Proof.
  apply Forall_forall. intros r Hr. apply in_map_iff in Hr.
  destruct Hr as [raw [<- _]]. apply screened_row_plausible.
Qed.

(** Whenever [ReadData] returns, the table has the dates of the file in
    the order of the file, the agency, site and quality columns as they
    were read, and no discharge below zero in it: each is absent or at
    least 0.  The count never exceeds the number of rows. *)
Theorem ReadData_table_invariant (file : RawFile) (DataDF : DataFrame)
    (MissingValues : nat)
    (Hret : ReadData file = Returned (DataDF, MissingValues)) :
  index DataDF = map raw_Date file
  /\ map agency_cd DataDF = map raw_agency_cd file
  /\ map site_no DataDF = map raw_site_no file
  /\ map Quality DataDF = map raw_Quality file
  /\ Forall plausible DataDF
  /\ (MissingValues <= List.length file)%nat.
Proof.
  apply ReadData_Returned_inv in Hret. destruct Hret as [_ [-> ->]].
  unfold index. rewrite !map_map. cbn [screened_row Date agency_cd site_no
                                       Quality].
  repeat (split; [reflexivity |]).
  split; [apply screened_rows_plausible |].
  etransitivity; [apply filter_length_le |]. rewrite length_map. reflexivity.
Qed.

Lemma ReadData_table_invariant_witness :
  index (map screened_row SampleFile.lines) = map raw_Date SampleFile.lines
  /\ Forall plausible (map screened_row SampleFile.lines).
Proof.
  pose proof (ReadData_table_invariant SampleFile.lines
                (map screened_row SampleFile.lines) 3%nat eq_refl) as H.
  split; [exact (proj1 H) | exact (proj1 (proj2 (proj2 (proj2 (proj2 H)))))].
Defined.

(** ** ClipData: windows inside windows *)

Lemma filter_filter_le {A : Type} (f g : A -> bool) (l : list A) :
  (forall x, In x l -> f x = true -> g x = true) ->
  filter f (filter g l) = filter f l.
Proof.
  induction l as [|x l IH]; intros Hfg; [reflexivity |].
  assert (Hl : forall y, In y l -> f y = true -> g y = true)
    by (intros y Hy; apply Hfg; right; exact Hy).
  cbn [filter]. destruct (g x) eqn:Hg.
  - cbn [filter]. rewrite (IH Hl). reflexivity.
  - destruct (f x) eqn:Hf; [| apply IH; exact Hl].
    rewrite (Hfg x (or_introl eq_refl) Hf) in Hg. discriminate.
Qed.

Lemma filter_swap {A : Type} (f g : A -> bool) (l : list A) :
  filter f (filter g l) = filter g (filter f l).
Proof.
  induction l as [|x l IH]; [reflexivity |].
  cbn [filter]. destruct (g x) eqn:Hg; destruct (f x) eqn:Hf;
    cbn [filter]; rewrite ?Hg, ?Hf, IH; reflexivity.
Qed.

Lemma in_window_narrower (s e s' e' : Timestamp) (r : Row) :
  Ts.le s s' -> Ts.le e' e ->
  in_window s' e' r = true -> in_window s e r = true.
Proof.
  intros Hs He Hin. apply in_window_spec in Hin. apply in_window_spec.
  destruct Hin as [H1 H2]. split.
  - eapply Ts_le_trans; eassumption.
  - eapply Ts_le_trans; eassumption.
Qed.

(** Clipping to a window and then to a window inside it is clipping to
    the inner window at once; the inner window never has the larger
    missing-value count; and the clipped table is again ascending, so it
    can be clipped or resampled in turn. *)
Theorem ClipData_nested_windows
    (DataDF : DataFrame) (s e s' e' : Timestamp)
    (Hasc : Pd.is_monotonic_increasing (index DataDF) = true)
    (Hs : Ts.le s s') (He : Ts.le e' e) :
  ClipData (fst (ClipData DataDF s e)) s' e' = ClipData DataDF s' e'
  /\ (snd (ClipData DataDF s' e') <= snd (ClipData DataDF s e))%nat
  /\ Pd.is_monotonic_increasing (index (fst (ClipData DataDF s e))) = true.
Proof.
  assert (Hinner : filter (in_window s' e') (filter (in_window s e) DataDF)
                   = filter (in_window s' e') DataDF).
  { apply filter_filter_le. intros r _. apply in_window_narrower; assumption. }
  rewrite !(ClipData_window DataDF) by exact Hasc. cbn [fst snd].
  split; [| split].
  - rewrite ClipData_window by (apply monotonic_filter; exact Hasc).
    rewrite Hinner. reflexivity.
  - rewrite <- Hinner, filter_swap. apply filter_length_le.
  - apply monotonic_filter. exact Hasc.
Qed.

Lemma ClipData_nested_windows_witness :
  ClipData (fst (ClipData Sample.daily Sample.startDate Sample.endDate))
           (mkTimestamp 2017 1 1) (mkTimestamp 2019 9 29)
  = ClipData Sample.daily (mkTimestamp 2017 1 1) (mkTimestamp 2019 9 29).
Proof.
  apply (ClipData_nested_windows Sample.daily Sample.startDate Sample.endDate
           (mkTimestamp 2017 1 1) (mkTimestamp 2019 9 29)).
  - reflexivity.
  - unfold Ts.le, Ts.lt, Sample.startDate; simpl. lia.
  - unfold Ts.le, Ts.lt, Sample.endDate; simpl. lia.
Defined.

(** ** The main loop: reading and clipping the two stations *)

Lemma filter_map_comm {A B : Type} (f : B -> bool) (g : A -> B)
    (l : list A) :
  filter f (map g l) = map g (filter (fun a => f (g a)) l).
Proof.
  induction l as [|a l IH]; [reflexivity |].
  cbn [map filter]. destruct (f (g a)); cbn [map]; rewrite IH; reflexivity.
Qed.

(** Clipping the table read from a file is reading the lines of the file
    that are dated within the window. *)
Lemma ClipData_screened_rows (file : RawFile) :
  Pd.is_monotonic_increasing (map raw_Date file) = true ->
  ClipData (map screened_row file) Main.startDate Main.endDate
  = (map screened_row (filter Main.in_clip_window file),
     (count_fields is_negative (filter Main.in_clip_window file)
      + count_fields (fun t => negb (is_number t))
                     (filter Main.in_clip_window file))%nat).
Proof.
  intros Hasc.
  assert (Hidx : index (map screened_row file) = map raw_Date file).
  { unfold index. rewrite map_map. reflexivity. }
  rewrite ClipData_window by (rewrite Hidx; exact Hasc).
  rewrite filter_map_comm.
  change (fun a => in_window Main.startDate Main.endDate (screened_row a))
    with Main.in_clip_window.
  rewrite absent_count_split. reflexivity.
Qed.

Lemma load_stations_raises (files : string -> RawFile) (names : Dict.t string)
    (st : Main.Tables) :
  Exists (fun fn => ReadData (files (snd fn)) = Raised TypeError) names ->
  Main.load_stations files st names = Raised TypeError.
Proof.
  revert st. induction names as [|[file name] names IH]; intros st Hex.
  - inversion Hex.
  - cbn [Main.load_stations]. unfold Main.load_station.
    destruct (ReadData (files name)) as [[table missing] | e] eqn:Hread.
    + cbv zeta. apply IH.
      inversion Hex as [? ? Hhd | ? ? Htl]; subst; [| exact Htl].
      cbn [snd] in Hhd. congruence.
    + destruct e. reflexivity.
Qed.

(** An exception of [ReadData] on the file of either station, read first
    or second, ends the loop with that exception: no table is returned
    for either station, also not for the one already read. *)
Theorem daily_flow_aborts (files : string -> RawFile)
    (Hbad : exists file name,
        In (file, name) Main.fileName
        /\ ReadData (files name) = Raised TypeError) :
  Main.daily_flow files = Raised TypeError.
Proof.
  destruct Hbad as [file [name [Hin Hex]]].
  apply load_stations_raises. apply Exists_exists.
  exists (file, name). split; [exact Hin | exact Hex].
Qed.

Lemma daily_flow_aborts_witness :
  Main.daily_flow
    (fun name =>
       if String.eqb name
            "TippecanoeRiver_Discharge_03331500_19431001-20200315.txt"
       then [ SampleFile.line 2020 1 1 (Text "Ice") ]
       else SampleStations.wildcat)
  = Raised TypeError.
Proof.
  apply daily_flow_aborts.
  exists "Tippe"%string,
         "TippecanoeRiver_Discharge_03331500_19431001-20200315.txt"%string.
  split; [right; left; reflexivity | reflexivity].
Defined.

(** When every discharge field of both files is a number or an NA marker
    and both files are in date order, the loop returns the two
    dictionaries with the keys Wildcat and Tippe; each table is the
    screened rows of the file's lines dated within 2014-10-01 ..
    2019-09-30, and each count is the number of negative and NA fields
    among those lines only: the count [ReadData] took over the whole file
    is overwritten. *)
Theorem daily_flow_tables (files : string -> RawFile)
    (Hwf : forall file name, In (file, name) Main.fileName ->
           Forall numeric_or_missing (map raw_Discharge (files name)))
    (Hasc : forall file name, In (file, name) Main.fileName ->
            Pd.is_monotonic_increasing (map raw_Date (files name)) = true) :
  exists DataDF MissingValues,
    Main.daily_flow files = Returned (DataDF, MissingValues)
    /\ Dict.keys DataDF = ["Wildcat"; "Tippe"]%string
    /\ Dict.keys MissingValues = ["Wildcat"; "Tippe"]%string
    /\ forall file name, In (file, name) Main.fileName ->
         let lines := filter Main.in_clip_window (files name) in
         Dict.get file DataDF = Some (map screened_row lines)
         /\ Dict.get file MissingValues
            = Some (count_fields is_negative lines
                    + count_fields (fun t => negb (is_number t)) lines)%nat.
Proof.
  unfold Main.daily_flow.
  assert (Hw : In ("Wildcat"%string,
                   "WildcatCreek_Discharge_03335000_19540601-20200315.txt"%string)
                  Main.fileName) by (left; reflexivity).
  assert (Ht : In ("Tippe"%string,
                   "TippecanoeRiver_Discharge_03331500_19431001-20200315.txt"%string)
                  Main.fileName) by (right; left; reflexivity).
  unfold Main.fileName at 1. cbn [Main.load_stations]. unfold Main.load_station.
  rewrite (ReadData_returns _ (Hwf _ _ Hw)). cbv zeta.
  rewrite (ClipData_screened_rows _ (Hasc _ _ Hw)). cbn [fst snd].
  rewrite (ReadData_returns _ (Hwf _ _ Ht)).
  rewrite (ClipData_screened_rows _ (Hasc _ _ Ht)). cbn [fst snd].
  eexists. eexists. split; [reflexivity |].
  split; [reflexivity |]. split; [reflexivity |].
  intros file name Hin. cbv zeta.
  destruct Hin as [Heq | [Heq | []]]; inversion Heq; subst;
    split; reflexivity.
Qed.

Lemma daily_flow_tables_witness :
  exists DataDF MissingValues,
    Main.daily_flow SampleStations.files = Returned (DataDF, MissingValues)
    /\ Dict.get "Wildcat"%string MissingValues = Some 2%nat
    /\ Dict.get "Tippe"%string MissingValues = Some 0%nat.
Proof.
  destruct (daily_flow_tables SampleStations.files) as
    [DataDF [MissingValues [Hret [_ [_ Hget]]]]].
  - intros file name [Heq | [Heq | []]]; inversion Heq; subst;
      cbn; repeat constructor; cbn; tauto.
  - intros file name [Heq | [Heq | []]]; inversion Heq; subst; reflexivity.
  - exists DataDF, MissingValues. split; [exact Hret |]. split.
    + exact (proj2 (Hget _ _ (or_introl eq_refl))).
    + exact (proj2 (Hget _ _ (or_intror (or_introl eq_refl)))).
Defined.

(** ** GetMonthlyStatistics: a lower bound of the profile *)

Lemma fold_Qplus_lower (vs : list Q) (lo a : Q) :
  Forall (fun v => (lo <= v)%Q) vs ->
  (a + Exc.Qnat (List.length vs) * lo <= fold_left Qplus vs a)%Q.
Proof.
  intros Hall. revert a.
  induction Hall as [|v vs Hv _ IH]; intros a; cbn [fold_left List.length].
  - change (Exc.Qnat 0) with 0%Q. lra.
  - specialize (IH (a + v)%Q). rewrite Qnat_S. lra.
Qed.

Lemma dropna_In (col : list (option Q)) (v : Q) :
  In v (Agg.dropna col) <-> In (Some v) col.
Proof.
  unfold Agg.dropna. rewrite in_flat_map. split.
  - intros [x [Hx Hv]]. destruct x as [w|]; [| destruct Hv].
    destruct Hv as [-> | []]. exact Hx.
  - intros Hin. exists (Some v). split; [exact Hin | left; reflexivity].
Qed.

Lemma Qnat_pos (n : nat) : (0 < Exc.Qnat (S n))%Q.
Proof. rewrite Qnat_S. pose proof (Qnat_nonneg n). lra. Qed.

(** A mean is not below a lower bound of the values it averages. *)
Lemma nanmean_lower (col : list (option Q)) (lo q : Q) :
  (forall v, In (Some v) col -> (lo <= v)%Q) ->
  Agg.nanmean col = Some q -> (lo <= q)%Q.
Proof.
  intros Hlo. unfold Agg.nanmean.
  destruct (Agg.dropna col) as [|v vs] eqn:Hd; [discriminate |].
  intros Hq. inversion Hq as [Hq']. clear Hq. subst q.
  assert (Hall : Forall (fun w => (lo <= w)%Q) (v :: vs)).
  { apply Forall_forall. intros w Hw. apply Hlo, dropna_In.
    rewrite Hd. exact Hw. }
  pose proof (fold_Qplus_lower (v :: vs) lo 0 Hall) as Hsum.
  match goal with
  | |- context [inject_Z ?z] =>
      change (inject_Z z) with (Exc.Qnat (List.length (v :: vs)))
  end.
  apply Qle_shift_div_l; [apply Qnat_pos |].
  unfold Agg.Qsum. lra.
Qed.

(** The values that a month of the profile averages are bin means, and
    the values a bin mean averages are discharges of the table. *)
Lemma profile_value_sources (df : DataFrame) (m : Z) (x : Q) :
  In (Some x)
     (map snd (filter (fun kv : Z * option Q => fst kv =? m)
                      (month_keyed df))) ->
  exists lbl, month lbl = m
    /\ Agg.nanmean (Discharge_column (filter (Agg.in_bin lbl) df)) = Some x.
Proof.
  rewrite month_keyed_values. intros Hin. apply in_map_iff in Hin.
  destruct Hin as [lbl [Hx Hlbl]]. apply filter_In in Hlbl.
  destruct Hlbl as [_ Hm]. apply Z.eqb_eq in Hm. exists lbl. tauto.
Qed.

Lemma bin_values_In (df : DataFrame) (lbl : Timestamp) (v : Q) :
  In (Some v) (Discharge_column (filter (Agg.in_bin lbl) df)) ->
  exists r, In r df /\ Discharge r = Some v /\ month (Date r) = month lbl.
Proof.
  unfold Discharge_column. intros Hin. apply in_map_iff in Hin.
  destruct Hin as [r [Hd Hr]]. apply filter_In in Hr.
  destruct Hr as [Hr Hbin]. unfold Agg.in_bin in Hbin.
  apply andb_true_iff in Hbin. destruct Hbin as [_ Hm].
  apply Z.eqb_eq in Hm. exists r. tauto.
Qed.

Lemma profile_lower (df : DataFrame) (lo : Q) (m : Z) (q : Q) :
  (forall r v, In r df -> Discharge r = Some v -> (lo <= v)%Q) ->
  In (m, Some q) (GetMonthlyStatistics df) -> (lo <= q)%Q.
Proof.
  intros Hlo Hin. apply GetMonthlyStatistics_value in Hin. symmetry in Hin.
  apply (nanmean_lower _ lo q) in Hin; [exact Hin |].
  intros x Hx. apply profile_value_sources in Hx.
  destruct Hx as [lbl [_ Hmean]].
  apply (nanmean_lower _ lo x) in Hmean; [exact Hmean |].
  intros v Hv. apply bin_values_In in Hv. destruct Hv as [r [Hr [Hd _]]].
  exact (Hlo r v Hr Hd).
Qed.

(** No monthly average is below zero when no discharge of the table is:
    for a table whose discharges are absent or at least 0, every value
    of the profile that is present is at least 0. *)
Theorem GetMonthlyStatistics_nonnegative (DataDF : DataFrame)
    (Hplausible : Forall plausible DataDF) :
  forall m q, In (m, Some q) (GetMonthlyStatistics DataDF) -> (0 <= q)%Q.
Proof.
  intros m q. apply profile_lower. intros r v Hr Hd.
  rewrite Forall_forall in Hplausible. specialize (Hplausible r Hr).
  unfold plausible in Hplausible. rewrite Hd in Hplausible.
  exact Hplausible.
Qed.

Lemma GetMonthlyStatistics_nonnegative_witness :
  exists q,
    In (1, Some q) (GetMonthlyStatistics SampleYears.januaries)
    /\ (0 <= q)%Q.
Proof.
  assert (Hplausible : Forall plausible SampleYears.januaries).
  { unfold SampleYears.januaries, Sample.row, plausible.
    repeat constructor; cbn [Discharge]; unfold Qle; simpl; lia. }
  assert (Hin : exists q,
             In (1, Some q) (GetMonthlyStatistics SampleYears.januaries)).
  { eexists. vm_compute. left. reflexivity. }
  destruct Hin as [q Hin]. exists q. split; [exact Hin |].
  exact (GetMonthlyStatistics_nonnegative SampleYears.januaries Hplausible
           1 q Hin).
Defined.

(** ** GetMonthlyStatistics: the shape of the index *)

Lemma twelve_months_In (m : Z) : In m Fig5.twelve_months <-> 1 <= m <= 12.
Proof. unfold Fig5.twelve_months. cbn [In]. lia. Qed.

Lemma twelve_months_sorted : StronglySorted Z.lt Fig5.twelve_months.
Proof.
  unfold Fig5.twelve_months.
  repeat (constructor; [| repeat (constructor; [lia |]); constructor]).
  constructor.
Qed.

(** Any twelve consecutive months hold every month number. *)
Lemma month_within_a_year (a m : Z) :
  1 <= m <= 12 ->
  exists o, a <= o <= a + 11 /\ Spec.calendar_month o = m.
Proof.
  intros Hm. exists (a + (m - 1 - a) mod 12). unfold Spec.calendar_month.
  pose proof (Z.mod_pos_bound (m - 1 - a) 12 ltac:(lia)).
  split; [lia |].
  rewrite Z.add_mod_idemp_r by lia.
  replace (a + (m - 1 - a)) with (m - 1) by lia.
  rewrite Z.mod_small by lia. lia.
Qed.

Lemma full_year_index (df : DataFrame) :
  (exists r1 r2, In r1 df /\ In r2 df
     /\ Agg.month_ordinal (Date r1) + 11 <= Agg.month_ordinal (Date r2)) ->
  map fst (GetMonthlyStatistics df) = Fig5.twelve_months.
Proof.
  intros [r1 [r2 [Hr1 [Hr2 Hspan]]]].
  apply sorted_same_elements.
  - rewrite GetMonthlyStatistics_index. apply group_keys_sorted.
  - apply twelve_months_sorted.
  - intros m. rewrite twelve_months_In, GetMonthlyStatistics_index_In. split.
    + intros [_ [_ [o [_ [_ [_ <-]]]]]]. apply calendar_month_bounds.
    + intros Hm.
      destruct (month_within_a_year (Agg.month_ordinal (Date r1)) m Hm)
        as [o [Ho Hcm]].
      exists r1, r2, o. repeat split; try assumption; lia.
Qed.

(** The index of the profile is in ascending month order; the profile is
    empty only for an empty table; and a table with two rows at least
    eleven months apart gives all twelve months 1..12. *)
Theorem GetMonthlyStatistics_index_shape (DataDF : DataFrame) :
  StronglySorted Z.lt (map fst (GetMonthlyStatistics DataDF))
  /\ (GetMonthlyStatistics DataDF = [] <-> DataDF = [])
  /\ ((exists r1 r2, In r1 DataDF /\ In r2 DataDF
         /\ Agg.month_ordinal (Date r1) + 11
            <= Agg.month_ordinal (Date r2)) ->
      map fst (GetMonthlyStatistics DataDF) = Fig5.twelve_months).
Proof.
  split; [| split; [| apply full_year_index]].
  - rewrite GetMonthlyStatistics_index. apply group_keys_sorted.
  - split.
    + intros Hnil. destruct DataDF as [|r df]; [reflexivity | exfalso].
      assert (Hin : In (Spec.calendar_month (Agg.month_ordinal (Date r)))
                       (map fst (GetMonthlyStatistics (r :: df)))).
      { apply GetMonthlyStatistics_index_In.
        exists r, r, (Agg.month_ordinal (Date r)).
        repeat split; try (left; reflexivity); lia. }
      rewrite Hnil in Hin. destruct Hin.
    + intros ->. reflexivity.
Qed.

(** ** GetMonthlyStatistics: which months hold a value *)

Lemma nanmean_Some_In (col : list (option Q)) (q : Q) :
  Agg.nanmean col = Some q -> exists v, In (Some v) col.
Proof.
  unfold Agg.nanmean. destruct (Agg.dropna col) as [|v vs] eqn:Hd;
    [discriminate |].
  intros _. exists v. apply dropna_In. rewrite Hd. left; reflexivity.
Qed.

Lemma nanmean_In_Some (col : list (option Q)) (v : Q) :
  In (Some v) col -> exists q, Agg.nanmean col = Some q.
Proof.
  intros Hin. apply dropna_In in Hin. unfold Agg.nanmean.
  destruct (Agg.dropna col) as [|w ws]; [destruct Hin |].
  eexists. reflexivity.
Qed.

Lemma in_bin_own_month (r : Row) :
  Spec.calendar_date (Date r) ->
  Agg.in_bin (Agg.month_start (Agg.month_ordinal (Date r))) r = true.
Proof.
  intros Hcal. rewrite in_bin_month_start by exact Hcal. apply Z.eqb_refl.
Qed.

Lemma own_label_In (df : DataFrame) (r : Row) :
  In r df ->
  In (Agg.month_start (Agg.month_ordinal (Date r)))
     (Agg.resample_MS_labels df).
Proof.
  intros Hr.
  destruct (resample_MS_labels_range df) as [[-> _] | [lo [hi [Hlo [Hhi Hl]]]]];
    [destruct Hr |].
  rewrite Hl. apply in_map. apply month_range_In.
  apply minimum_spec in Hlo. apply maximum_spec in Hhi.
  destruct Hlo as [_ Hlo]. destruct Hhi as [_ Hhi].
  rewrite Forall_forall in Hlo, Hhi.
  assert (Ho : In (Agg.month_ordinal (Date r))
                  (map Agg.month_ordinal (index df)))
    by (apply row_ordinal_In; exists r; tauto).
  split; [apply Hlo | apply Hhi]; exact Ho.
Qed.

(** For a table of calendar dates, a month of the profile holds a value
    exactly when some row of that calendar month, in any year, has a
    discharge that is present. *)
Theorem GetMonthlyStatistics_value_present (DataDF : DataFrame) (m : Z)
    (Hcal : Forall Spec.calendar_date (index DataDF)) :
  (exists q, In (m, Some q) (GetMonthlyStatistics DataDF))
  <-> (exists r v, In r DataDF /\ month (Date r) = m /\ Discharge r = Some v).
Proof.
  split.
  - intros [q Hin]. apply GetMonthlyStatistics_value in Hin. symmetry in Hin.
    apply nanmean_Some_In in Hin. destruct Hin as [x Hx].
    apply profile_value_sources in Hx. destruct Hx as [lbl [Hm Hmean]].
    apply nanmean_Some_In in Hmean. destruct Hmean as [v Hv].
    apply bin_values_In in Hv. destruct Hv as [r [Hr [Hd Hmonth]]].
    exists r, v. split; [exact Hr |]. split; [congruence | exact Hd].
  - intros [r [v [Hr [Hm Hd]]]].
    assert (Hrcal : Spec.calendar_date (Date r)).
    { rewrite Forall_forall in Hcal. apply Hcal. apply in_map. exact Hr. }
    assert (Hidx : In m (map fst (GetMonthlyStatistics DataDF))).
    { rewrite <- Hm. apply GetMonthlyStatistics_row_month; assumption. }
    apply In_index_entry in Hidx. destruct Hidx as [val Hval].
    pose proof (GetMonthlyStatistics_value DataDF m val Hval) as Heq.
    set (lbl := Agg.month_start (Agg.month_ordinal (Date r))).
    assert (Hbin : exists x,
               Agg.nanmean (Discharge_column (filter (Agg.in_bin lbl) DataDF))
               = Some x).
    { apply (nanmean_In_Some _ v). unfold Discharge_column.
      apply in_map_iff. exists r. split; [exact Hd |].
      apply filter_In. split; [exact Hr | apply in_bin_own_month, Hrcal]. }
    destruct Hbin as [x Hx].
    assert (Hval_some : exists q, val = Some q).
    { rewrite Heq. apply (nanmean_In_Some _ x).
      rewrite month_keyed_values. apply in_map_iff. exists lbl.
      split; [exact Hx |]. apply filter_In.
      split; [apply own_label_In; exact Hr |].
      apply Z.eqb_eq. subst lbl. rewrite month_start_month.
      rewrite calendar_month_ordinal by exact Hrcal. exact Hm. }
    destruct Hval_some as [q ->]. exists q. exact Hval.
Qed.

Lemma GetMonthlyStatistics_value_present_witness :
  (exists q, In (7, Some q) (GetMonthlyStatistics SampleYears.two_years))
  <-> (exists r v, In r SampleYears.two_years
                   /\ month (Date r) = 7 /\ Discharge r = Some v).
Proof.
  apply (GetMonthlyStatistics_value_present SampleYears.two_years 7).
  unfold SampleYears.two_years, Sample.row, Spec.calendar_date.
  repeat constructor; simpl; lia.
Defined.

(** ** The main routine: the monthly profiles of figure 5 *)

Lemma screened_profile_nonneg (lines : RawFile) (m : Z) (q : Q) :
  In (m, Some q) (GetMonthlyStatistics (map screened_row lines)) ->
  (0 <= q)%Q.
Proof.
  apply profile_lower. intros r v Hr Hd.
  pose proof (screened_rows_plausible lines) as Hp.
  rewrite Forall_forall in Hp. specialize (Hp r Hr).
  unfold plausible in Hp. rewrite Hd in Hp. exact Hp.
Qed.

Lemma screened_profile_full_year (lines : RawFile) :
  (exists raw1 raw2, In raw1 lines /\ In raw2 lines
     /\ Agg.month_ordinal (raw_Date raw1) + 11
        <= Agg.month_ordinal (raw_Date raw2)) ->
  map fst (GetMonthlyStatistics (map screened_row lines))
  = Fig5.twelve_months.
Proof.
  intros [raw1 [raw2 [H1 [H2 Hspan]]]]. apply full_year_index.
  exists (screened_row raw1), (screened_row raw2).
  split; [apply in_map; exact H1 |]. split; [apply in_map; exact H2 |].
  exact Hspan.
Qed.

(** When the loop over the stations returns, the profile of figure 5
    exists for both stations and for no other key; none of its monthly
    averages is below zero; and a station whose file has two lines within
    the clip window at least eleven months apart gets all twelve months
    1..12. *)
Theorem average_annual_monthly_flow_profiles (files : string -> RawFile)
    (Hwf : forall file name, In (file, name) Main.fileName ->
           Forall numeric_or_missing (map raw_Discharge (files name)))
    (Hasc : forall file name, In (file, name) Main.fileName ->
            Pd.is_monotonic_increasing (map raw_Date (files name)) = true) :
  exists DataDF MissingValues,
    Main.daily_flow files = Returned (DataDF, MissingValues)
    /\ (forall station,
          station <> "Wildcat"%string -> station <> "Tippe"%string ->
          Fig5.average_annual_monthly_flow DataDF station = None)
    /\ forall file name, In (file, name) Main.fileName ->
         exists profile,
           Fig5.average_annual_monthly_flow DataDF file = Some profile
           /\ (forall m q, In (m, Some q) profile -> (0 <= q)%Q)
           /\ ((exists raw1 raw2,
                  In raw1 (filter Main.in_clip_window (files name))
                  /\ In raw2 (filter Main.in_clip_window (files name))
                  /\ Agg.month_ordinal (raw_Date raw1) + 11
                     <= Agg.month_ordinal (raw_Date raw2)) ->
               map fst profile = Fig5.twelve_months).
Proof.
  unfold Main.daily_flow.
  assert (Hw : In ("Wildcat"%string,
                   "WildcatCreek_Discharge_03335000_19540601-20200315.txt"%string)
                  Main.fileName) by (left; reflexivity).
  assert (Ht : In ("Tippe"%string,
                   "TippecanoeRiver_Discharge_03331500_19431001-20200315.txt"%string)
                  Main.fileName) by (right; left; reflexivity).
  unfold Main.fileName at 1. cbn [Main.load_stations]. unfold Main.load_station.
  rewrite (ReadData_returns _ (Hwf _ _ Hw)). cbv zeta.
  rewrite (ClipData_screened_rows _ (Hasc _ _ Hw)). cbn [fst snd].
  rewrite (ReadData_returns _ (Hwf _ _ Ht)).
  rewrite (ClipData_screened_rows _ (Hasc _ _ Ht)). cbn [fst snd].
  eexists. eexists. split; [reflexivity |]. split.
  - intros station Hnw Hnt. unfold Fig5.average_annual_monthly_flow.
    cbn [Dict.set Dict.get String.eqb Ascii.eqb Bool.eqb].
    apply String.eqb_neq in Hnw. apply String.eqb_neq in Hnt.
    cbn [Dict.get]. rewrite Hnw, Hnt. reflexivity.
  - intros file name Hin.
    destruct Hin as [Heq | [Heq | []]]; inversion Heq; subst;
      (eexists; split; [reflexivity |]; split;
       [intros m q; apply screened_profile_nonneg
       | apply screened_profile_full_year]).
Qed.

Lemma average_annual_monthly_flow_profiles_witness :
  exists DataDF MissingValues profile,
    Main.daily_flow SampleStations.files = Returned (DataDF, MissingValues)
    /\ Fig5.average_annual_monthly_flow DataDF "Wildcat"%string
       = Some profile
    /\ map fst profile = Fig5.twelve_months.
Proof.
  destruct (average_annual_monthly_flow_profiles SampleStations.files) as
    [DataDF [MissingValues [Hret [_ Hprof]]]].
  - intros file name [Heq | [Heq | []]]; inversion Heq; subst;
      cbn; repeat constructor; cbn; tauto.
  - intros file name [Heq | [Heq | []]]; inversion Heq; subst; reflexivity.
  - destruct (Hprof _ _ (or_introl eq_refl)) as [profile [Hp [_ Hfull]]].
    exists DataDF, MissingValues, profile.
    split; [exact Hret |]. split; [exact Hp |]. apply Hfull.
    exists (SampleFile.line 2014 10 1 (Numeric (-3)%Q)),
           (SampleFile.line 2019 9 30 (Numeric 40%Q)).
    split; [vm_compute; left; reflexivity |].
    split; [vm_compute; right; right; left; reflexivity |].
    vm_compute. discriminate.
Defined.

(** ** ReadMetrics *)

Lemma get_None_iff {V : Type} (k : string) (d : Dict.t V) :
  Dict.get k d = None <-> ~ In k (Dict.keys d).
Proof.
  unfold Dict.keys. induction d as [|[k' v] d IH]; cbn [Dict.get map In fst].
  - tauto.
  - destruct (String.eqb k k') eqn:Hk.
    + apply String.eqb_eq in Hk. subst k'. split; [discriminate | tauto].
    + apply String.eqb_neq in Hk. rewrite IH. split.
      * intros Hn [Heq | Hin]; [congruence | tauto].
      * tauto.
Qed.

Lemma get_remove_other {V : Type} (k k' : string) (d : Dict.t V) :
  k <> k' -> Dict.get k (Metrics.remove k' d) = Dict.get k d.
Proof.
  intros Hne. induction d as [|[k0 v] d IH]; [reflexivity |].
  cbn [Metrics.remove Dict.get]. destruct (String.eqb k' k0) eqn:Hk'.
  - apply String.eqb_eq in Hk'. subst k0.
    apply String.eqb_neq in Hne. rewrite Hne. reflexivity.
  - cbn [Dict.get]. rewrite IH. reflexivity.
Qed.

Lemma keys_remove_notin {V : Type} (k : string) (d : Dict.t V) :
  NoDup (Dict.keys d) -> ~ In k (Dict.keys (Metrics.remove k d)).
Proof.
  unfold Dict.keys. induction d as [|[k0 v] d IH]; intros Hnd;
    cbn [Metrics.remove map fst] in *; [tauto |].
  inversion Hnd as [|? ? Hnotin Hnd']; subst.
  destruct (String.eqb k k0) eqn:Hk.
  - apply String.eqb_eq in Hk. subst k0. exact Hnotin.
  - apply String.eqb_neq in Hk. cbn [map fst In].
    intros [Heq | Hin]; [congruence | exact (IH Hnd' Hin)].
Qed.

Lemma keys_remove_length {V : Type} (k : string) (d : Dict.t V) :
  In k (Dict.keys d) ->
  S (List.length (Metrics.remove k d)) = List.length d.
Proof.
  unfold Dict.keys. induction d as [|[k0 v] d IH]; cbn [map fst In];
    [tauto |].
  intros Hin. cbn [Metrics.remove]. destruct (String.eqb k k0) eqn:Hk;
    [reflexivity |].
  apply String.eqb_neq in Hk. cbn [List.length]. f_equal. apply IH.
  destruct Hin as [Heq | Hin]; [congruence | exact Hin].
Qed.

(** [ReadMetrics] fails exactly when the file has no Date column.
    Otherwise the Date column is the index and is no longer a column,
    and every other column is looked up under its name with the cells it
    had: one column fewer, no cell changed. *)
Theorem ReadMetrics_columns (parsed : Dict.t Metrics.Column)
    (Hnames : NoDup (Dict.keys parsed)) :
  (ReadMetrics parsed = None <-> ~ In "Date"%string (Dict.keys parsed))
  /\ forall metricsDF, ReadMetrics parsed = Some metricsDF ->
       Dict.get "Date" parsed = Some (Metrics.findex metricsDF)
       /\ Metrics.getitem metricsDF "Date" = None
       /\ (forall name, name <> "Date"%string ->
             Metrics.getitem metricsDF name = Dict.get name parsed)
       /\ S (List.length (Metrics.fcolumns metricsDF)) = List.length parsed.
Proof.
  unfold ReadMetrics, Metrics.set_index. cbv zeta. split.
  - rewrite <- get_None_iff.
    destruct (Dict.get "Date" parsed); split; congruence.
  - intros metricsDF Hsome.
    destruct (Dict.get "Date" parsed) as [dates |] eqn:Hdate;
      [| discriminate].
    inversion Hsome; subst. clear Hsome.
    unfold Metrics.getitem. cbn [Metrics.findex Metrics.fcolumns].
    split; [reflexivity |]. split; [| split].
    + apply get_None_iff. apply keys_remove_notin. exact Hnames.
    + intros name Hne. apply get_remove_other. exact Hne.
    + apply keys_remove_length.
      destruct (in_dec string_dec "Date"%string (Dict.keys parsed))
        as [Hin | Hnot]; [exact Hin |].
      apply get_None_iff in Hnot. congruence.
Qed.

Lemma ReadMetrics_columns_witness :
  ReadMetrics SampleMetrics.parsed = Some SampleMetrics.frame
  /\ Metrics.getitem SampleMetrics.frame "Date" = None.
Proof.
  split; [reflexivity |].
  assert (Hnames : NoDup (Dict.keys SampleMetrics.parsed)).
  { unfold SampleMetrics.parsed. cbn.
    repeat (constructor; [cbn [In]; intros H;
                          repeat (destruct H as [H | H];
                                  [discriminate H |]); exact H |]).
    constructor. }
  exact (proj1 (proj2 (proj2 (ReadMetrics_columns SampleMetrics.parsed Hnames)
                         SampleMetrics.frame eq_refl))).
Defined.

(** ** The rows of a station *)

Lemma get_Some_In {V : Type} (k : string) (v : V) (d : Dict.t V) :
  Dict.get k d = Some v -> In (k, v) d.
Proof.
  induction d as [|[k' v'] d IH]; cbn [Dict.get]; [discriminate |].
  destruct (String.eqb k k') eqn:Hk.
  - apply String.eqb_eq in Hk. intros H. inversion H; subst.
    left; reflexivity.
  - intros H. right. apply IH. exact H.
Qed.

Lemma get_map_values {V W : Type} (f : V -> W) (k : string) (d : Dict.t V) :
  Dict.get k (map (fun kv : string * V => (fst kv, f (snd kv))) d)
  = option_map f (Dict.get k d).
Proof.
  induction d as [|[k' v] d IH]; [reflexivity |].
  cbn [map Dict.get fst snd]. destruct (String.eqb k k'); [reflexivity |].
  exact IH.
Qed.

Lemma take_length (st col : Metrics.Column) (name : string) :
  List.length col = List.length st ->
  List.length (Metrics.take (Metrics.eq_scalar st name) col)
  = List.length (filter (Metrics.is_label name) st).
Proof.
  unfold Metrics.take, Metrics.eq_scalar. revert col.
  induction st as [|c st IH]; intros [|x col] Hlen;
    cbn [List.length] in Hlen; try discriminate; [reflexivity |].
  cbn [map combine filter snd].
  destruct (Metrics.is_label name c); cbn [map List.length];
    rewrite IH by lia; reflexivity.
Qed.

Lemma take_combine (st a b : Metrics.Column) (name : string) :
  List.length a = List.length st -> List.length b = List.length st ->
  combine (Metrics.take (Metrics.eq_scalar st name) a)
          (Metrics.take (Metrics.eq_scalar st name) b)
  = map fst
        (filter (fun t : Metrics.Cell * Metrics.Cell * Metrics.Cell =>
                   Metrics.is_label name (snd t))
                (combine (combine a b) st)).
Proof.
  unfold Metrics.take, Metrics.eq_scalar. revert a b.
  induction st as [|c st IH]; intros [|x a] [|y b] Ha Hb;
    cbn [List.length] in Ha, Hb; try discriminate; [reflexivity |].
  cbn [map combine filter snd].
  destruct (Metrics.is_label name c); cbn [map combine fst];
    rewrite IH by lia; reflexivity.
Qed.

Lemma take_labels (st : Metrics.Column) (name : string) :
  Forall (fun c => c = Metrics.Label name)
         (Metrics.take (Metrics.eq_scalar st name) st).
Proof.
  unfold Metrics.take, Metrics.eq_scalar.
  induction st as [|c st IH]; [constructor |].
  cbn [map combine filter snd].
  destruct (Metrics.is_label name c) eqn:Hc; [| exact IH].
  cbn [map fst]. constructor; [| exact IH].
  destruct c as [x | t | d]; cbn [Metrics.is_label] in Hc;
    try discriminate.
  apply String.eqb_eq in Hc. subst t. reflexivity.
Qed.

Lemma rectangular_column (frame : Metrics.Frame) (name : string)
    (col : Metrics.Column) :
  Metrics.rectangular frame ->
  Metrics.getitem frame name = Some col ->
  List.length col = List.length (Metrics.findex frame).
Proof.
  unfold Metrics.rectangular, Metrics.getitem. intros Hrect Hget.
  apply get_Some_In in Hget. rewrite Forall_forall in Hrect.
  exact (Hrect _ Hget).
Qed.

(** Selecting a station from a frame with a Station column keeps the
    column names, keeps index and columns of one length, leaves only
    rows whose Station is that name, and keeps dates and values
    together: the (date, value) pairs of every column of the selection
    are, in order, those of the rows of the frame whose Station is the
    name. *)
Theorem station_selection (frame : Metrics.Frame) (name : string)
    (st : Metrics.Column)
    (Hrect : Metrics.rectangular frame)
    (Hst : Metrics.getitem frame "Station" = Some st) :
  exists sub,
    Metrics.station frame name = Some sub
    /\ Metrics.rectangular sub
    /\ Dict.keys (Metrics.fcolumns sub) = Dict.keys (Metrics.fcolumns frame)
    /\ List.length (Metrics.findex sub)
       = List.length (filter (Metrics.is_label name) st)
    /\ (exists st', Metrics.getitem sub "Station" = Some st'
                    /\ Forall (fun c => c = Metrics.Label name) st')
    /\ forall column col,
         Metrics.getitem frame column = Some col ->
         exists col',
           Metrics.getitem sub column = Some col'
           /\ combine (Metrics.findex sub) col'
              = map fst
                  (filter (fun t : Metrics.Cell * Metrics.Cell * Metrics.Cell
                           => Metrics.is_label name (snd t))
                          (combine (combine (Metrics.findex frame) col) st)).
Proof.
  pose proof (rectangular_column frame _ st Hrect Hst) as Hlen_st.
  exists (Metrics.select frame (Metrics.eq_scalar st name)).
  split; [unfold Metrics.station; rewrite Hst; reflexivity |].
  assert (Hget : forall column,
             Metrics.getitem
               (Metrics.select frame (Metrics.eq_scalar st name)) column
             = option_map (Metrics.take (Metrics.eq_scalar st name))
                          (Metrics.getitem frame column)).
  { intros column. unfold Metrics.getitem, Metrics.select.
    cbn [Metrics.fcolumns]. apply get_map_values. }
  split; [| split; [| split; [| split]]].
  - unfold Metrics.rectangular, Metrics.select.
    cbn [Metrics.findex Metrics.fcolumns].
    apply Forall_forall. intros [k col'] Hin. apply in_map_iff in Hin.
    destruct Hin as [[k0 col] [Heq Hin]]. inversion Heq; subst. cbn [snd].
    unfold Metrics.rectangular in Hrect. rewrite Forall_forall in Hrect.
    specialize (Hrect _ Hin). cbn [snd] in Hrect.
    rewrite !take_length by lia. reflexivity.
  - unfold Dict.keys, Metrics.select. cbn [Metrics.fcolumns].
    rewrite map_map. reflexivity.
  - unfold Metrics.select. cbn [Metrics.findex].
    apply take_length. lia.
  - exists (Metrics.take (Metrics.eq_scalar st name) st).
    split; [rewrite Hget, Hst; reflexivity | apply take_labels].
  - intros column col Hcol.
    exists (Metrics.take (Metrics.eq_scalar st name) col).
    split; [rewrite Hget, Hcol; reflexivity |].
    unfold Metrics.select. cbn [Metrics.findex].
    apply take_combine; [lia |].
    rewrite (rectangular_column frame column col Hrect Hcol). lia.
Qed.

Lemma station_selection_witness :
  exists sub peaks,
    Metrics.station SampleMetrics.frame "Wildcat" = Some sub
    /\ Metrics.getitem sub "Peak Flow" = Some peaks
    /\ combine (Metrics.findex sub) peaks
       = [ (Metrics.Stamp (mkTimestamp 1970 9 30),
            Metrics.Number (Some 5100%Q));
           (Metrics.Stamp (mkTimestamp 1971 9 30),
            Metrics.Number (Some 4800%Q)) ].
Proof.
  destruct (station_selection SampleMetrics.frame "Wildcat"
              [ Metrics.Label "Tippe"; Metrics.Label "Tippe";
                Metrics.Label "Wildcat"; Metrics.Label "Wildcat" ])
    as [sub [Hsub [_ [_ [_ [_ Hcols]]]]]].
  - unfold Metrics.rectangular. cbn. repeat constructor.
  - reflexivity.
  - destruct (Hcols "Peak Flow"%string
                [ Metrics.Number (Some 9000%Q); Metrics.Number (Some 7400%Q);
                  Metrics.Number (Some 5100%Q); Metrics.Number (Some 4800%Q) ]
                eq_refl) as [peaks [Hp Hpairs]].
    exists sub, peaks. split; [exact Hsub |]. split; [exact Hp |].
    rewrite Hpairs. reflexivity.
Defined.

Lemma station_counts (st : Metrics.Column) (s1 s2 : string) :
  s1 <> s2 ->
  (List.length (filter (Metrics.is_label s1) st)
   + List.length (filter (Metrics.is_label s2) st)
   + List.length (filter (fun c => negb (Metrics.is_label s1 c)
                                   && negb (Metrics.is_label s2 c)) st)
   = List.length st)%nat.
Proof.
  intros Hne. induction st as [|c st IH]; [reflexivity |].
  cbn [filter].
  destruct (Metrics.is_label s1 c) eqn:H1;
    destruct (Metrics.is_label s2 c) eqn:H2;
    cbn [negb andb List.length]; try lia.
  exfalso. destruct c as [x | t | d]; cbn [Metrics.is_label] in H1, H2;
    try discriminate.
  apply String.eqb_eq in H1. apply String.eqb_eq in H2. congruence.
Qed.

(** Without a Station column no station can be selected.  With one, the
    rows of Tippe, the rows of Wildcat and the rows of any other station
    name add up to the rows of the frame: no row is plotted for both
    stations, and a row of another name is plotted for neither. *)
Theorem station_partition (frame : Metrics.Frame)
    (Hrect : Metrics.rectangular frame) :
  (Metrics.getitem frame "Station" = None ->
   forall name, Metrics.station frame name = None)
  /\ forall st tippe_annual wildcat_annual,
       Metrics.getitem frame "Station" = Some st ->
       Metrics.station frame "Tippe" = Some tippe_annual ->
       Metrics.station frame "Wildcat" = Some wildcat_annual ->
       (List.length (Metrics.findex tippe_annual)
        + List.length (Metrics.findex wildcat_annual)
        + List.length
            (filter (fun c => negb (Metrics.is_label "Tippe" c)
                              && negb (Metrics.is_label "Wildcat" c)) st)
        = List.length (Metrics.findex frame))%nat.
Proof.
  split.
  - intros Hnone name. unfold Metrics.station. rewrite Hnone. reflexivity.
  - intros st tippe_annual wildcat_annual Hst Ht Hw.
    pose proof (rectangular_column frame _ st Hrect Hst) as Hlen.
    unfold Metrics.station in Ht, Hw. rewrite Hst in Ht, Hw.
    inversion Ht; inversion Hw; subst. clear Ht Hw.
    unfold Metrics.select. cbn [Metrics.findex].
    rewrite !take_length by lia. rewrite <- Hlen.
    apply station_counts. discriminate.
Qed.

Lemma station_partition_witness :
  (List.length
     (Metrics.findex
        (Metrics.select SampleMetrics.frame
           (Metrics.eq_scalar
              [ Metrics.Label "Tippe"; Metrics.Label "Tippe";
                Metrics.Label "Wildcat"; Metrics.Label "Wildcat" ] "Tippe")))
   + List.length
       (Metrics.findex
          (Metrics.select SampleMetrics.frame
             (Metrics.eq_scalar
                [ Metrics.Label "Tippe"; Metrics.Label "Tippe";
                  Metrics.Label "Wildcat"; Metrics.Label "Wildcat" ]
                "Wildcat")))
   + 0
   = 4)%nat.
Proof.
  assert (Hrect : Metrics.rectangular SampleMetrics.frame).
  { unfold Metrics.rectangular. cbn. repeat constructor. }
  exact (proj2 (station_partition SampleMetrics.frame Hrect)
           [ Metrics.Label "Tippe"; Metrics.Label "Tippe";
             Metrics.Label "Wildcat"; Metrics.Label "Wildcat" ]
           _ _ eq_refl eq_refl eq_refl).
Defined.

(** ** ReadMetrics on a table written to CSV *)









